(** * terraform-provider-proxmox: provider configuration and the storages data source

    A shallow embedding of the two Go files of the provider

    - [provider.go] (package [provider]): [ProxmoxClient], [ProxmoxClient.DoRequest],
      [ProxmoxProviderModel], [ProxmoxProvider.Configure];
    - [internal/provider/storages_data_source.go]: [StorageModel],
      [StoragesDataSourceModel], [StoragesDataSource.Configure],
      [StoragesDataSource.Read];

    together with models of the library calls they make ([strings], [net/url],
    [net/http], [io], [encoding/json], [strconv], the plugin framework's [types]
    and [diag]).  A Go method [T.M] is written [T_M], a package function [p.F]
    is written [p_F].

    Conventions.
    - A Go [string] is a Rocq [string]: a sequence of bytes.
    - A Go [int] / [int64] is a [Z]; [float64] is an IEEE 754 binary64 value,
      [spec_float] with precision 53 and maximal exponent 1024.
    - [map[string]interface{}] is [gmap string any]; a nil map reads like the empty
      one.  A slice is a [list]; a nil slice reads like the empty one.
    - A method that writes through its [resp] pointer takes the response and
      returns the updated one.
    - The only effect is handing a request to [http.Client.Do]; the [IO] monad
      threads the log of the requests handed over.
    - Logging ([tflog.Debug]) and [defer httpResp.Body.Close()] leave no trace in
      the values modelled here and are omitted. *)

From Stdlib Require Import ZArith String Ascii List Bool Lia DecimalString DecimalPos.
From Stdlib Require Import Floats.SpecFloat.
From stdpp Require Import base option list gmap strings.

Set Warnings "-register-all".
Local Open Scope string_scope.
Local Open Scope Z_scope.
Local Open Scope list_scope.

(* ===================================================================== *)
(** * Part I.  Definitions                                                *)
(* ===================================================================== *)

(* --------------------------------------------------------------------- *)
(** ** Go values                                                          *)
(* --------------------------------------------------------------------- *)

Abbreviation float64 := spec_float.

(** The dynamic values [encoding/json] stores in an [interface{}]. *)
Inductive any : Type :=
| any_nil
| any_bool (b : bool)
| any_float64 (f : float64)
| any_string (s : string)
| any_slice (l : list any)
| any_map (m : gmap string any).

(** Go's [error] values met by this program.  [errorString] stands for an error
    of which only the message is seen (transport, body-read, URL syntax);
    [http_invalid_method] is the error of [http.NewRequest] for a method that
    is no token. *)
Inductive error : Type :=
| errorString (msg : string)
| url_Error (Op URL : string) (Err : error)
| http_invalid_method (method : string)
| json_SyntaxError
| json_UnmarshalTypeError (Value : string).

Global Instance error_eq_dec : EqDecision error.
Proof. solve_decision. Defined.

Definition int64_min : Z := - 2 ^ 63.
Definition int64_max : Z := 2 ^ 63 - 1.
Definition in_int64 (z : Z) : bool := (int64_min <=? z) && (z <=? int64_max).

(** The [int64] with the low 64 bits of [z] (two's complement). *)
Definition to_int64 (z : Z) : Z := (z + 2 ^ 63) mod 2 ^ 64 - 2 ^ 63.

(* --------------------------------------------------------------------- *)
(** ** Bytes, package [strings], and the [%d] verb                        *)
(* --------------------------------------------------------------------- *)

Definition byte_of (c : ascii) : N := N_of_ascii c.
Definition byte (n : N) : ascii := ascii_of_N n.

(** The byte [c] lies between [lo] and [hi]. *)
Definition in_range (lo hi : N) (c : ascii) : bool :=
  ((lo <=? byte_of c) && (byte_of c <=? hi))%N.

(** [strings.HasSuffix(s, suffix)]:
    [len(s) >= len(suffix) && s[len(s)-len(suffix):] == suffix]. *)
Definition strings_HasSuffix (s suffix : string) : bool :=
  let n := String.length s in
  let k := String.length suffix in
  (k <=? n)%nat && String.eqb (substring (n - k) k s) suffix.

(** [strings.TrimSuffix(s, suffix)]: [s] without the suffix when it has it, else [s]. *)
Definition strings_TrimSuffix (s suffix : string) : string :=
  if strings_HasSuffix s suffix
  then substring 0 (String.length s - String.length suffix) s
  else s.

(** [strings.Contains(s, substr)]: [substr] starts at some index of [s]. *)
Fixpoint strings_Contains (s substr : string) : bool :=
  String.prefix substr s ||
  match s with
  | EmptyString => false
  | String _ s' => strings_Contains s' substr
  end.

(** [strings.Cut(s, sep)] for a one-byte separator: the text before the first
    [sep] and the text after it. *)
Fixpoint strings_Cut (s : string) (sep : ascii) : string * string * bool :=
  match s with
  | EmptyString => (EmptyString, EmptyString, false)
  | String c s' =>
      if Ascii.eqb c sep then (EmptyString, s', true)
      else let '(before, after, found) := strings_Cut s' sep in
           (String c before, after, found)
  end.

(** The [%d] verb of [fmt.Sprintf]: a signed decimal numeral. *)
Definition fmt_d (n : Z) : string := NilZero.string_of_int (Z.to_int n).

(* --------------------------------------------------------------------- *)
(** ** Framework values: [types.String], [types.Bool], [types.Int64]      *)
(* --------------------------------------------------------------------- *)

(** A framework attribute value is null, unknown, or a known Go value. *)
Inductive attr (A : Type) : Type :=
| Null
| Unknown
| Known (v : A).
Arguments Null {A}.
Arguments Unknown {A}.
Arguments Known {A} v.

Global Instance attr_eq_dec {A} `{EqDecision A} : EqDecision (attr A).
Proof. solve_decision. Defined.

Abbreviation types_String := (attr string).
Abbreviation types_Bool := (attr bool).
Abbreviation types_Int64 := (attr Z).

Definition types_StringValue (v : string) : types_String := Known v.
Definition types_StringNull : types_String := Null.
Definition types_Int64Value (v : Z) : types_Int64 := Known v.
Definition types_Int64Null : types_Int64 := Null.

Definition IsNull {A} (x : attr A) : bool :=
  match x with Null => true | _ => false end.

(** [ValueString] / [ValueBool]: the known value, the zero value when null or unknown. *)
Definition ValueString (x : types_String) : string :=
  match x with Known v => v | _ => EmptyString end.
Definition ValueBool (x : types_Bool) : bool :=
  match x with Known v => v | _ => false end.

(* --------------------------------------------------------------------- *)
(** ** Package [diag]                                                     *)
(* --------------------------------------------------------------------- *)

Inductive Severity : Type := SeverityError | SeverityWarning.

(** The detail text of a diagnostic.  [WithError s e] is the text [s] followed
    by the message of [e], as [fmt.Sprintf] renders a format ending in [%s]
    applied to an error; the wording of library messages is not modelled. *)
Inductive detail : Type :=
| Plain (s : string)
| WithError (s : string) (e : error).

Record Diagnostic : Type := {
  severity : Severity;
  Summary : string;
  Detail : detail;
}.

Abbreviation Diagnostics := (list Diagnostic).

Global Instance Severity_eq_dec : EqDecision Severity.
Proof. solve_decision. Defined.
Global Instance detail_eq_dec : EqDecision detail.
Proof. solve_decision. Defined.
Global Instance Diagnostic_eq_dec : EqDecision Diagnostic.
Proof. solve_decision. Defined.

Definition diag_NewErrorDiagnostic (summary : string) (d : detail) : Diagnostic :=
  {| severity := SeverityError; Summary := summary; Detail := d |}.

(** [Diagnostics.Contains]. *)
Definition Diagnostics_Contains (diags : Diagnostics) (d : Diagnostic) : bool :=
  bool_decide (d ∈ diags).

(** [Diagnostics.Append(in...)]: each diagnostic not yet contained is appended. *)
Fixpoint Diagnostics_Append (diags : Diagnostics) (new : Diagnostics) : Diagnostics :=
  match new with
  | [] => diags
  | d :: new' =>
      if Diagnostics_Contains diags d
      then Diagnostics_Append diags new'
      else Diagnostics_Append (diags ++ [d])%list new'
  end.

(** [Diagnostics.AddError(summary, detail)]. *)
Definition Diagnostics_AddError (diags : Diagnostics) (summary : string) (d : detail)
  : Diagnostics :=
  Diagnostics_Append diags [diag_NewErrorDiagnostic summary d].

(** [Diagnostics.HasError()]. *)
Definition Diagnostics_HasError (diags : Diagnostics) : bool :=
  existsb (fun d => bool_decide (severity d = SeverityError)) diags.

(* --------------------------------------------------------------------- *)
(** ** Package [net/http]: requests, responses, clients                   *)
(* --------------------------------------------------------------------- *)

(** [http.Header]: [map[string][]string]. *)
Abbreviation http_Header := (gmap string (list string)).

(** [Header.Set(key, value)] for a key already in canonical form, which both
    keys set by [DoRequest] are. *)
Definition Header_Set (h : http_Header) (key value : string) : http_Header :=
  <[key := [value]]> h.

Record http_Request : Type := {
  Method : string;
  URL : string;
  Header : http_Header;
  RequestBody : string;
}.

(** A response as [Read] observes it: the status code and what [io.ReadAll]
    returns for its body, the bytes read and the error that stopped the read,
    if any. *)
Record http_Response : Type := {
  StatusCode : Z;
  Body : string * option error;
}.

Definition io_ReadAll (body : string * option error) : string * option error := body.

Definition http_StatusOK : Z := 200.

(** [tls.Config] and [http.Transport] reduced to the one field the provider sets. *)
Record tls_Config : Type := { InsecureSkipVerify : bool }.
Record http_Transport : Type := { TLSClientConfig : option tls_Config }.
Record http_Client : Type := { Transport : http_Transport }.

(** What the program does not decide:
    - [roundTrip]: the answer of [http.Client.Do] to a request, a response or an error;
    - [url_syntax_error]: the error, if any, of the checks of [url.Parse] that
      follow its control-byte check;
    - [json_Encode]: [json.NewEncoder(buf).Encode(body)] for a non-nil request body;
    - [float64_to_int64_overflow]: the result of converting to [int64] a [float64]
      whose integer part [int64] cannot hold, which the Go specification leaves
      to the implementation (amd64 yields the least [int64], arm64 saturates). *)
Record World : Type := {
  roundTrip : http_Client -> http_Request -> error + http_Response;
  url_syntax_error : string -> option error;
  json_Encode : any -> error + string;
  float64_to_int64_overflow : float64 -> Z;
}.

(** The log of requests handed to [http.Client.Do], oldest first. *)
Definition IO (A : Type) : Type := list http_Request -> A * list http_Request.

Global Instance IO_ret : MRet IO := fun A (a : A) log => (a, log).
Global Instance IO_bind : MBind IO :=
  fun A B (k : A -> IO B) (m : IO A) log => let '(a, log') := m log in k a log'.

(** [c.Do(req)]. *)
Definition http_Client_Do (w : World) (c : http_Client) (req : http_Request)
  : IO (error + http_Response) :=
  fun log => (roundTrip w c req, (log ++ [req])%list).

(** [stringContainsCTLByte] of [net/url]. *)
Fixpoint stringContainsCTLByte (s : string) : bool :=
  match s with
  | EmptyString => false
  | String c s' =>
      (byte_of c <? 32)%N || (byte_of c =? 127)%N || stringContainsCTLByte s'
  end.

(** [url.Parse(rawURL)], as far as it decides success: the fragment is cut off
    at the first [#], a control byte before it is an error, the remaining
    syntax checks are the world's [url_syntax_error]. *)
Definition url_Parse (w : World) (rawURL : string) : option error :=
  let '(u, frag, _) := strings_Cut rawURL "#" in
  if stringContainsCTLByte u
  then Some (url_Error "parse" u
               (errorString "net/url: invalid control character in URL"))
  else url_syntax_error w rawURL.

(** [httpguts.IsTokenRune] on a byte: letters, digits and the marks
    [! # $ % & ' * + - . ^ _ ` | ~]. *)
Definition isTokenByte (c : ascii) : bool :=
  in_range 48 57 c || in_range 65 90 c || in_range 97 122 c
  || in_range 33 33 c || in_range 35 39 c || in_range 42 43 c
  || in_range 45 46 c || in_range 94 96 c || in_range 124 124 c
  || in_range 126 126 c.

(** [validMethod]: a non-empty token. *)
Definition validMethod (method : string) : bool :=
  negb (String.eqb method EmptyString)
  && forallb isTokenByte (list_ascii_of_string method).

(** [http.NewRequest(method, url, body)]: an empty method stands for GET, the
    method must be a token, the URL must parse; the new request has an empty
    header. *)
Definition http_NewRequest (w : World) (method url body : string)
  : error + http_Request :=
  let method := if String.eqb method EmptyString then "GET" else method in
  if negb (validMethod method) then inl (http_invalid_method method)
  else
    match url_Parse w url with
    | Some err => inl err
    | None => inr {| Method := method; URL := url; Header := ∅; RequestBody := body |}
    end.

(* --------------------------------------------------------------------- *)
(** ** Package [unicode/utf8]                                             *)
(* --------------------------------------------------------------------- *)

Definition is_cont (c : ascii) : bool := in_range 128 191 c.

(** The size of the UTF-8 encoding that starts [s], following
    [utf8.DecodeRune]: 2, 3 or 4 for a well-formed multi-byte encoding (no
    overlong form, no surrogate, at most U+10FFFF), 0 otherwise. *)
Definition utf8_multibyte_len (s : string) : nat :=
  match s with
  | String b0 (String b1 r) =>
      if in_range 194 223 b0 then (if is_cont b1 then 2 else 0)%nat
      else
        match r with
        | String b2 r' =>
            if (in_range 224 224 b0 && in_range 160 191 b1
                || in_range 225 236 b0 && is_cont b1
                || in_range 237 237 b0 && in_range 128 159 b1
                || in_range 238 239 b0 && is_cont b1) && is_cont b2
            then 3%nat
            else
              match r' with
              | String b3 _ =>
                  if (in_range 240 240 b0 && in_range 144 191 b1
                      || in_range 241 243 b0 && is_cont b1
                      || in_range 244 244 b0 && in_range 128 143 b1)
                     && is_cont b2 && is_cont b3
                  then 4%nat else 0%nat
              | EmptyString => 0%nat
              end
        | EmptyString => 0%nat
        end
  | _ => 0%nat
  end.

(** [utf8.EncodeRune] for a rune that is a Unicode scalar value. *)
Definition utf8_EncodeRune (r : N) : string :=
  (if r <? 128 then String (byte r) EmptyString
   else if r <? 2048 then
     String (byte (192 + r / 64)) (String (byte (128 + r mod 64)) EmptyString)
   else if r <? 65536 then
     String (byte (224 + r / 4096))
       (String (byte (128 + (r / 64) mod 64)) (String (byte (128 + r mod 64)) EmptyString))
   else
     String (byte (240 + r / 262144))
       (String (byte (128 + (r / 4096) mod 64))
          (String (byte (128 + (r / 64) mod 64))
             (String (byte (128 + r mod 64)) EmptyString))))%N.

Definition unicode_ReplacementChar : N := 65533.

(* --------------------------------------------------------------------- *)
(** ** Package [encoding/json]: the scanner                               *)
(* --------------------------------------------------------------------- *)

(** A JSON text as the scanner accepts it.  A number keeps its literal, a
    string and an object key are held unquoted, an object keeps its members in
    order, duplicates included. *)
Inductive json_value : Type :=
| JNull
| JBool (b : bool)
| JNumber (lit : string)
| JString (s : string)
| JArray (elems : list json_value)
| JObject (members : list (string * json_value)).

Definition quote_byte : N := 34.
Definition backslash_byte : N := 92.

Definition isSpace (c : ascii) : bool :=
  match c with
  | " "%char | "009"%char | "010"%char | "013"%char => true
  | _ => false
  end.

Fixpoint skip_space (s : string) : string :=
  match s with
  | String c r => if isSpace c then skip_space r else s
  | EmptyString => s
  end.

Definition is_digit (c : ascii) : bool := in_range 48 57 c.

Definition hex_val (c : ascii) : option N :=
  if is_digit c then Some (byte_of c - 48)%N
  else if in_range 97 102 c then Some (byte_of c - 87)%N
  else if in_range 65 70 c then Some (byte_of c - 55)%N
  else None.

(** [getu4] on the four bytes after a backslash and [u]. *)
Definition getu4 (s : string) : option N :=
  match s with
  | String a (String b (String c (String d _))) =>
      h3 ← hex_val a; h2 ← hex_val b; h1 ← hex_val c; h0 ← hex_val d;
      Some (((h3 * 16 + h2) * 16 + h1) * 16 + h0)%N
  | _ => None
  end.

Fixpoint span_digits (s : string) : string * string :=
  match s with
  | String c r =>
      if is_digit c then let '(ds, rest) := span_digits r in (String c ds, rest)
      else (EmptyString, s)
  | EmptyString => (EmptyString, EmptyString)
  end.

(** A number literal at the head of [s]: optional minus, [0] or a nonzero
    digit and digits, optional fraction, optional exponent.  Returns the
    literal and the text after it. *)
Definition scan_number (s : string) : option (string * string) :=
  let '(sign, s1) :=
    match s with
    | String "-"%char r => ("-", r)
    | _ => (EmptyString, s)
    end in
  int_part ←
    match s1 with
    | String "0"%char r => Some ("0", r)
    | String c r =>
        if in_range 49 57 c
        then let '(ds, rest) := span_digits r in Some (String c ds, rest)
        else None
    | EmptyString => None
    end;
  let '(int_lit, s2) := int_part in
  frac_part ←
    match s2 with
    | String "."%char r =>
        let '(ds, rest) := span_digits r in
        match ds with
        | EmptyString => None
        | _ => Some ("." +:+ ds, rest)
        end
    | _ => Some (EmptyString, s2)
    end;
  let '(frac_lit, s3) := frac_part in
  exp_part ←
    match s3 with
    | String c r =>
        if Ascii.eqb c "e" || Ascii.eqb c "E" then
          let '(esign, r1) :=
            match r with
            | String "+"%char r' => ("+", r')
            | String "-"%char r' => ("-", r')
            | _ => (EmptyString, r)
            end in
          let '(ds, rest) := span_digits r1 in
          match ds with
          | EmptyString => None
          | _ => Some (String c esign +:+ ds, rest)
          end
        else Some (EmptyString, s3)
    | EmptyString => Some (EmptyString, s3)
    end;
  let '(exp_lit, s4) := exp_part in
  Some (sign +:+ int_lit +:+ frac_lit +:+ exp_lit, s4).

(** The body of a string literal, [s] being the text after its opening quote:
    the raw bytes up to the closing quote and the text after it.  A byte below
    0x20 and a malformed escape are syntax errors. *)
Fixpoint scan_string (s : string) : option (string * string) :=
  match s with
  | EmptyString => None
  | String c r =>
      if (byte_of c =? quote_byte)%N then Some (EmptyString, r)
      else if (byte_of c =? backslash_byte)%N then
        match r with
        | String e r' =>
            if (byte_of e =? quote_byte)%N || (byte_of e =? backslash_byte)%N
               || Ascii.eqb e "/" || Ascii.eqb e "b" || Ascii.eqb e "f"
               || Ascii.eqb e "n" || Ascii.eqb e "r" || Ascii.eqb e "t"
               || (Ascii.eqb e "u" && bool_decide (is_Some (getu4 r')))
            then '(raw, rest) ← scan_string r'; Some (String c (String e raw), rest)
            else None
        | EmptyString => None
        end
      else if (byte_of c <? 32)%N then None
      else '(raw, rest) ← scan_string r; Some (String c raw, rest)
  end.

(** What [unquote] reads off the raw body of a literal: a byte to copy, or a
    UTF-16 code unit (from a [\u] escape, or the replacement character put in
    place of a byte that starts no well-formed UTF-8 encoding). *)
Inductive unit_ : Type :=
| UByte (c : ascii)
| UCode (u : N).

Definition unescape (e : ascii) : ascii :=
  match e with
  | "b"%char => "008"%char
  | "f"%char => "012"%char
  | "n"%char => "010"%char
  | "r"%char => "013"%char
  | "t"%char => "009"%char
  | _ => e
  end.

(** [skip] bytes are passed over (the rest of an escape), [copy] bytes are
    copied as they are (the rest of a well-formed UTF-8 encoding). *)
Fixpoint units (skip copy : nat) (s : string) : list unit_ :=
  match s with
  | EmptyString => []
  | String c r =>
      match skip, copy with
      | S k, _ => units k copy r
      | O, S k => UByte c :: units O k r
      | O, O =>
          if (byte_of c =? backslash_byte)%N then
            match r with
            | String e r' =>
                if Ascii.eqb e "u"
                then UCode (default unicode_ReplacementChar (getu4 r')) :: units 5 0 r
                else UByte (unescape e) :: units 1 0 r
            | EmptyString => []
            end
          else if (byte_of c <? 128)%N then UByte c :: units 0 0 r
          else
            match utf8_multibyte_len s with
            | O => UCode unicode_ReplacementChar :: units 0 0 r
            | S n => UByte c :: units 0 n r
            end
      end
  end.

Definition is_surrogate (u : N) : bool := ((55296 <=? u) && (u <? 57344))%N.

(** [utf16.DecodeRune]: the rune of a surrogate pair, the replacement
    character when the two code units are no pair. *)
Definition utf16_DecodeRune (r1 r2 : N) : N :=
  (if (55296 <=? r1) && (r1 <? 56320) && (56320 <=? r2) && (r2 <? 57344)
   then (r1 - 55296) * 1024 + (r2 - 56320) + 65536
   else unicode_ReplacementChar)%N.

Fixpoint encode_units (us : list unit_) : string :=
  match us with
  | [] => EmptyString
  | UByte c :: us' => String c (encode_units us')
  | UCode u :: us' =>
      if is_surrogate u then
        match us' with
        | UCode u2 :: us'' =>
            let dec := utf16_DecodeRune u u2 in
            if (dec =? unicode_ReplacementChar)%N
            then utf8_EncodeRune unicode_ReplacementChar +:+ encode_units us'
            else utf8_EncodeRune dec +:+ encode_units us''
        | _ => utf8_EncodeRune unicode_ReplacementChar +:+ encode_units us'
        end
      else utf8_EncodeRune u +:+ encode_units us'
  end.

(** [unquote] on the raw body of a scanned string literal. *)
Definition unquote (raw : string) : string := encode_units (units 0 0 raw).

Definition drop_string (n : nat) (s : string) : string :=
  substring n (String.length s - n) s.

Section scan_containers.
(** The scanner of one value, at a nesting depth one below the container's. *)
Variable scan_value : string -> option (json_value * string).

(** The elements of an array after its first bracket, [s] starting at an
    element; [fuel] bounds the number of elements. *)
Fixpoint scan_elements (fuel : nat) (s : string) : option (list json_value * string) :=
  match fuel with
  | O => None
  | S fuel' =>
      '(v, r) ← scan_value s;
      match skip_space r with
      | String ","%char r' =>
          '(vs, rest) ← scan_elements fuel' r'; Some (v :: vs, rest)
      | String "]"%char r' => Some ([v], r')
      | _ => None
      end
  end.

(** The members of an object, [s] starting at a key. *)
Fixpoint scan_members (fuel : nat) (s : string)
  : option (list (string * json_value) * string) :=
  match fuel with
  | O => None
  | S fuel' =>
      match skip_space s with
      | String q r =>
          if (byte_of q =? quote_byte)%N then
            '(raw, r1) ← scan_string r;
            match skip_space r1 with
            | String ":"%char r2 =>
                '(v, r3) ← scan_value r2;
                match skip_space r3 with
                | String ","%char r4 =>
                    '(ms, rest) ← scan_members fuel' r4;
                    Some ((unquote raw, v) :: ms, rest)
                | String "}"%char r4 => Some ([(unquote raw, v)], r4)
                | _ => None
                end
            | _ => None
            end
          else None
      | EmptyString => None
      end
  end.
End scan_containers.

(** One value at the head of [s] after white space.  [depth] is the number of
    containers that may still be opened. *)
Fixpoint scan_value (depth : nat) (s : string) : option (json_value * string) :=
  match skip_space s with
  | EmptyString => None
  | String c r as s0 =>
      if Ascii.eqb c "{" then
        match depth with
        | O => None
        | S d =>
            match skip_space r with
            | String "}"%char r' => Some (JObject [], r')
            | r1 =>
                '(ms, rest) ← scan_members (scan_value d) (String.length r1) r1;
                Some (JObject ms, rest)
            end
        end
      else if Ascii.eqb c "[" then
        match depth with
        | O => None
        | S d =>
            match skip_space r with
            | String "]"%char r' => Some (JArray [], r')
            | r1 =>
                '(vs, rest) ← scan_elements (scan_value d) (String.length r1) r1;
                Some (JArray vs, rest)
            end
        end
      else if (byte_of c =? quote_byte)%N then
        '(raw, rest) ← scan_string r; Some (JString (unquote raw), rest)
      else if String.prefix "true" s0 then Some (JBool true, drop_string 4 s0)
      else if String.prefix "false" s0 then Some (JBool false, drop_string 5 s0)
      else if String.prefix "null" s0 then Some (JNull, drop_string 4 s0)
      else '(lit, rest) ← scan_number s0; Some (JNumber lit, rest)
  end.

(** [maxNestingDepth] of the scanner. *)
Definition maxNestingDepth : nat := (100 * 100)%nat.

(** [checkValid]: the whole of [data] is one JSON value between white space. *)
Definition json_parse (data : string) : option json_value :=
  '(v, rest) ← scan_value maxNestingDepth data;
  match skip_space rest with
  | EmptyString => Some v
  | _ => None
  end.

(* --------------------------------------------------------------------- *)
(** ** provider.go                                                        *)
(* --------------------------------------------------------------------- *)

Record ProxmoxClient : Type := {
  HTTPClient : http_Client;
  Endpoint : string;
  TokenID : string;
  TokenSecret : string;
}.

(** [func (c *ProxmoxClient) DoRequest(method, path string, body interface{})]. *)
Definition ProxmoxClient_DoRequest (w : World) (c : ProxmoxClient)
    (method path : string) (body : option any) : IO (error + http_Response) :=
  match
    match body with
    | Some b => json_Encode w b
    | None => inr EmptyString
    end
  with
  | inl err => mret (inl err)
  | inr buf =>
      let url := strings_TrimSuffix (Endpoint c) "/" +:+ "/api2/json" +:+ path in
      match http_NewRequest w method url buf with
      | inl err => mret (inl err)
      | inr req =>
          let req :=
            {| Method := Method req; URL := URL req;
               Header := Header_Set (Header req) "Authorization"
                           ("PVEAPIToken=" +:+ TokenID c +:+ "=" +:+ TokenSecret c);
               RequestBody := RequestBody req |} in
          let req :=
            {| Method := Method req; URL := URL req;
               Header := Header_Set (Header req) "Content-Type" "application/json";
               RequestBody := RequestBody req |} in
          http_Client_Do w (HTTPClient c) req
      end
  end.

Record ProxmoxProviderModel : Type := {
  pm_Endpoint : types_String;
  pm_TokenID : types_String;
  pm_TokenSecret : types_String;
  pm_SkipVerify : types_Bool;
}.

(** [provider.ConfigureRequest]: what [req.Config.Get(ctx, &data)] yields, its
    diagnostics and the decoded model. *)
Record provider_ConfigureRequest : Type := {
  Config_Get : list Diagnostic * ProxmoxProviderModel;
}.

Record provider_ConfigureResponse : Type := {
  cr_Diagnostics : list Diagnostic;
  DataSourceData : option ProxmoxClient;
  ResourceData : option ProxmoxClient;
}.

Definition cr_AddError (resp : provider_ConfigureResponse) (summary det : string)
  : provider_ConfigureResponse :=
  {| cr_Diagnostics := Diagnostics_AddError (cr_Diagnostics resp) summary (Plain det);
     DataSourceData := DataSourceData resp;
     ResourceData := ResourceData resp |}.

(** [func (p *ProxmoxProvider) Configure(ctx, req, resp)]. *)
Definition ProxmoxProvider_Configure (req : provider_ConfigureRequest)
    (resp : provider_ConfigureResponse) : IO provider_ConfigureResponse :=
  let '(diags, data) := Config_Get req in
  let resp :=
    {| cr_Diagnostics := Diagnostics_Append (cr_Diagnostics resp) diags;
       DataSourceData := DataSourceData resp;
       ResourceData := ResourceData resp |} in
  if Diagnostics_HasError (cr_Diagnostics resp) then mret resp
  else if IsNull (pm_Endpoint data) then
    mret (cr_AddError resp "Missing Configuration"
      "The provider cannot create the Proxmox API client as there is a missing or empty value for the Proxmox endpoint.")
  else if IsNull (pm_TokenID data) then
    mret (cr_AddError resp "Missing Configuration"
      "The provider cannot create the Proxmox API client as there is a missing or empty value for the Proxmox API token ID.")
  else if IsNull (pm_TokenSecret data) then
    mret (cr_AddError resp "Missing Configuration"
      "The provider cannot create the Proxmox API client as there is a missing or empty value for the Proxmox API token secret.")
  else
    let tokenID := ValueString (pm_TokenID data) in
    if negb (strings_Contains tokenID "!") then
      mret (cr_AddError resp "Invalid Token ID Format"
        "The API token ID should contain a '!' character and follow the format 'user@realm!tokenname' (e.g., 'root@pam!mytesttoken').")
    else
      let transport :=
        if negb (IsNull (pm_SkipVerify data)) && ValueBool (pm_SkipVerify data)
        then {| TLSClientConfig := Some {| InsecureSkipVerify := true |} |}
        else {| TLSClientConfig := None |} in
      let client :=
        {| HTTPClient := {| Transport := transport |};
           Endpoint := ValueString (pm_Endpoint data);
           TokenID := ValueString (pm_TokenID data);
           TokenSecret := ValueString (pm_TokenSecret data) |} in
      mret {| cr_Diagnostics := cr_Diagnostics resp;
              DataSourceData := Some client;
              ResourceData := Some client |}.

(* --------------------------------------------------------------------- *)
(** ** [strconv.ParseFloat] and the conversion [int64(f)]                 *)
(* --------------------------------------------------------------------- *)

Fixpoint digits_value (s : string) (acc : N) : N :=
  match s with
  | String c r => digits_value r (acc * 10 + (byte_of c - 48))%N
  | EmptyString => acc
  end.

(** The binary64 value nearest to [coef * 10 ^ e10] (ties to even), with the
    sign [neg]; an infinity when the value is too large. *)
Definition decimal_to_float64 (neg : bool) (coef : N) (e10 : Z) : float64 :=
  match coef with
  | N0 => S754_zero neg
  | Npos m =>
      if 0 <=? e10
      then binary_round 53 1024 neg (m * Z.to_pos (10 ^ e10)) 0
      else SFdiv 53 1024 (S754_finite neg m 0)
             (S754_finite false (Z.to_pos (10 ^ (- e10))) 0)
  end.

(** [strconv.ParseFloat(lit, 64)] on a literal the scanner accepted: [None]
    stands for the range error returned when the value overflows. *)
Definition strconv_ParseFloat (lit : string) : option float64 :=
  let '(neg, s1) :=
    match lit with
    | String "-"%char r => (true, r)
    | _ => (false, lit)
    end in
  let '(int_ds, s2) := span_digits s1 in
  let '(frac_ds, s3) :=
    match s2 with
    | String "."%char r => span_digits r
    | _ => (EmptyString, s2)
    end in
  let e :=
    match s3 with
    | String _ (String "-"%char r) => - Z.of_N (digits_value r 0)
    | String _ (String "+"%char r) => Z.of_N (digits_value r 0)
    | String _ r => Z.of_N (digits_value r 0)
    | EmptyString => 0
    end in
  match decimal_to_float64 neg (digits_value (int_ds +:+ frac_ds) 0)
          (e - Z.of_nat (String.length frac_ds)) with
  | S754_infinity _ => None
  | f => Some f
  end.

(** The integer part of a finite [float64], its fraction discarded; [None]
    for an infinity or a NaN. *)
Definition float64_truncate (f : float64) : option Z :=
  match f with
  | S754_zero _ => Some 0
  | S754_finite s m e => Some (cond_Zopp s (Z.shiftl (Z.pos m) e))
  | S754_infinity _ | S754_nan => None
  end.

(** The conversion [int64(f)]: the integer part when [int64] holds it, else
    the implementation's choice. *)
Definition int64_of_float64 (w : World) (f : float64) : Z :=
  match float64_truncate f with
  | Some z => if in_int64 z then z else to_int64 (float64_to_int64_overflow w f)
  | None => to_int64 (float64_to_int64_overflow w f)
  end.

(* --------------------------------------------------------------------- *)
(** ** Package [encoding/json]: the decoder                               *)
(* --------------------------------------------------------------------- *)

(** [d.saveError]: the first error is kept, decoding goes on. *)
Definition saveError (saved : option error) (err : error) : option error :=
  match saved with
  | Some e => Some e
  | None => Some err
  end.

(** [d.valueInterface]: a value decoded into an [interface{}]. *)
Fixpoint valueInterface (v : json_value) (saved : option error) : any * option error :=
  match v with
  | JNull => (any_nil, saved)
  | JBool b => (any_bool b, saved)
  | JString s => (any_string s, saved)
  | JNumber lit =>
      match strconv_ParseFloat lit with
      | Some f => (any_float64 f, saved)
      | None => (any_nil, saveError saved (json_UnmarshalTypeError ("number " +:+ lit)))
      end
  | JArray elems =>
      let fix arrayInterface (l : list json_value) (saved : option error)
        : list any * option error :=
        match l with
        | [] => ([], saved)
        | x :: l' =>
            let '(a, saved1) := valueInterface x saved in
            let '(r, saved2) := arrayInterface l' saved1 in
            (a :: r, saved2)
        end in
      let '(r, saved') := arrayInterface elems saved in (any_slice r, saved')
  | JObject members =>
      let fix objectInterface (ms : list (string * json_value)) (m : gmap string any)
          (saved : option error) : gmap string any * option error :=
        match ms with
        | [] => (m, saved)
        | kx :: ms' =>
            let '(a, saved1) := valueInterface (snd kx) saved in
            objectInterface ms' (<[fst kx := a]> m) saved1
        end in
      let '(m, saved') := objectInterface members ∅ saved in (any_map m, saved')
  end.

(** [d.object] into a [map[string]interface{}] that holds [m]: existing
    entries are kept, a repeated key takes its last value. *)
Fixpoint object_into_map (ms : list (string * json_value)) (m : gmap string any)
    (saved : option error) : gmap string any * option error :=
  match ms with
  | [] => (m, saved)
  | kx :: ms' =>
      let '(a, saved1) := valueInterface (snd kx) saved in
      object_into_map ms' (<[fst kx := a]> m) saved1
  end.

(** [d.value] into a [map[string]interface{}] that holds [cur]. *)
Definition value_into_map (cur : gmap string any) (v : json_value)
    (saved : option error) : gmap string any * option error :=
  match v with
  | JNull => (∅, saved)
  | JObject ms => object_into_map ms cur saved
  | JArray _ => (cur, saveError saved (json_UnmarshalTypeError "array"))
  | JString _ => (cur, saveError saved (json_UnmarshalTypeError "string"))
  | JNumber _ => (cur, saveError saved (json_UnmarshalTypeError "number"))
  | JBool _ => (cur, saveError saved (json_UnmarshalTypeError "bool"))
  end.

(** [d.array] into a [[]map[string]interface{}] that holds [cur]: element [i]
    is decoded into [cur[i]] when the slice has one, into a nil map otherwise;
    the slice ends with the array.  (What an earlier, longer decoding left in
    the backing array beyond the length of [cur] is not modelled.) *)
Fixpoint array_into_slice (elems : list json_value) (i : nat)
    (cur : list (gmap string any)) (saved : option error)
  : list (gmap string any) * option error :=
  match elems with
  | [] => ([], saved)
  | x :: elems' =>
      let '(m, saved1) := value_into_map (default ∅ (cur !! i)) x saved in
      let '(ms, saved2) := array_into_slice elems' (S i) cur saved1 in
      (m :: ms, saved2)
  end.

(** [d.value] into a [[]map[string]interface{}] that holds [cur]. *)
Definition value_into_slice (cur : list (gmap string any)) (v : json_value)
    (saved : option error) : list (gmap string any) * option error :=
  match v with
  | JNull => ([], saved)
  | JArray elems => array_into_slice elems 0 cur saved
  | JObject _ => (cur, saveError saved (json_UnmarshalTypeError "object"))
  | JString _ => (cur, saveError saved (json_UnmarshalTypeError "string"))
  | JNumber _ => (cur, saveError saved (json_UnmarshalTypeError "number"))
  | JBool _ => (cur, saveError saved (json_UnmarshalTypeError "bool"))
  end.

Definition ascii_lower (c : ascii) : ascii :=
  if in_range 65 90 c then byte (byte_of c + 32) else c.

Fixpoint string_lower (s : string) : string :=
  match s with
  | String c r => String (ascii_lower c) (string_lower r)
  | EmptyString => EmptyString
  end.

(** A member key selects the struct field tagged [name] when it equals the
    tag or differs from it in letter case only; [name] is in lower case and
    has neither [k] nor [s], so only ASCII letters fold onto it. *)
Definition key_matches_field (key name : string) : bool :=
  String.eqb key name || String.eqb (string_lower key) name.

(** The anonymous struct of [Read]:
    [struct { Data []map[string]interface{} `json:"data"` }]. *)
Record storageResponse_t : Type := {
  Data : list (gmap string any);
}.

(** [d.object] into the struct: members are taken in order, one that selects
    no field is skipped. *)
Fixpoint object_into_struct (ms : list (string * json_value)) (sr : storageResponse_t)
    (saved : option error) : storageResponse_t * option error :=
  match ms with
  | [] => (sr, saved)
  | kx :: ms' =>
      if key_matches_field (fst kx) "data" then
        let '(d, saved1) := value_into_slice (Data sr) (snd kx) saved in
        object_into_struct ms' {| Data := d |} saved1
      else object_into_struct ms' sr saved
  end.

(** [d.value] into the struct. *)
Definition value_into_struct (v : json_value) (sr : storageResponse_t)
    (saved : option error) : storageResponse_t * option error :=
  match v with
  | JNull => (sr, saved)
  | JObject ms => object_into_struct ms sr saved
  | JArray _ => (sr, saveError saved (json_UnmarshalTypeError "array"))
  | JString _ => (sr, saveError saved (json_UnmarshalTypeError "string"))
  | JNumber _ => (sr, saveError saved (json_UnmarshalTypeError "number"))
  | JBool _ => (sr, saveError saved (json_UnmarshalTypeError "bool"))
  end.

(** [json.Unmarshal(data, &storageResponse)] on the zero struct: a syntax
    error when [data] is no JSON text, else the first error saved while
    decoding, else the decoded struct. *)
Definition json_Unmarshal (data : string) : error + storageResponse_t :=
  match json_parse data with
  | None => inl json_SyntaxError
  | Some v =>
      match value_into_struct v {| Data := [] |} None with
      | (_, Some err) => inl err
      | (sr, None) => inr sr
      end
  end.

(* --------------------------------------------------------------------- *)
(** ** storages_data_source.go                                            *)
(* --------------------------------------------------------------------- *)

Record StoragesDataSource : Type := {
  client : option ProxmoxClient;
}.

Record StorageModel : Type := {
  Storage : types_String;
  Type_ : types_String;
  Content : types_String;
  Path : types_String;
  Priority : types_Int64;
  Digest : types_String;
  PruneBackups : types_String;
}.

Record StoragesDataSourceModel : Type := {
  ID : types_String;
  Storages : list StorageModel;
}.

(** The zero value [StorageModel{}]: every field null. *)
Definition StorageModel_zero : StorageModel :=
  {| Storage := Null; Type_ := Null; Content := Null; Path := Null;
     Priority := Null; Digest := Null; PruneBackups := Null |}.

(** [req.ProviderData]: nil, a [*ProxmoxClient], or a value of another type,
    of which only the name ([%T]) is seen. *)
Inductive ProviderData_t : Type :=
| ProviderData_nil
| ProviderData_client (c : ProxmoxClient)
| ProviderData_other (type_name : string).

Record datasource_ConfigureRequest : Type := {
  ProviderData : ProviderData_t;
}.

Record datasource_ConfigureResponse : Type := {
  dcr_Diagnostics : list Diagnostic;
}.

(** [func (d *StoragesDataSource) Configure(ctx, req, resp)]: returns the
    data source and the response as it leaves them. *)
Definition StoragesDataSource_Configure (d : StoragesDataSource)
    (req : datasource_ConfigureRequest) (resp : datasource_ConfigureResponse)
  : StoragesDataSource * datasource_ConfigureResponse :=
  match ProviderData req with
  | ProviderData_nil => (d, resp)
  | ProviderData_other type_name =>
      (d, {| dcr_Diagnostics :=
               Diagnostics_AddError (dcr_Diagnostics resp)
                 "Unexpected Data Source Configure Type"
                 (Plain ("Expected *ProxmoxClient, got: " +:+ type_name +:+
                         ". Please report this issue to the provider developers.")) |})
  | ProviderData_client c => ({| client := Some c |}, resp)
  end.

Record datasource_ReadRequest : Type := {
  rr_Config_Get : list Diagnostic * StoragesDataSourceModel;
}.

(** [resp.State] is [None] until [resp.State.Set] stores a model. *)
Record datasource_ReadResponse : Type := {
  State : option StoragesDataSourceModel;
  rs_Diagnostics : list Diagnostic;
}.

Definition rs_AddError (resp : datasource_ReadResponse) (summary : string) (d : detail)
  : datasource_ReadResponse :=
  {| State := State resp;
     rs_Diagnostics := Diagnostics_AddError (rs_Diagnostics resp) summary d |}.

(** The body of the conversion loop of [Read]: one raw record to one
    [StorageModel], field by field. *)
Definition convert_storage (w : World) (storageData : gmap string any) : StorageModel :=
  {| Storage :=
       match storageData !! "storage" with
       | Some (any_string val) => types_StringValue val
       | _ => types_StringNull
       end;
     Type_ :=
       match storageData !! "type" with
       | Some (any_string val) => types_StringValue val
       | _ => types_StringNull
       end;
     Content :=
       match storageData !! "content" with
       | Some (any_string val) => types_StringValue val
       | _ => types_StringNull
       end;
     Path :=
       match storageData !! "path" with
       | Some (any_string val) => types_StringValue val
       | _ => types_StringNull
       end;
     Priority :=
       match storageData !! "priority" with
       | Some (any_float64 val) => types_Int64Value (int64_of_float64 w val)
       | _ => types_Int64Null
       end;
     Digest :=
       match storageData !! "digest" with
       | Some (any_string val) => types_StringValue val
       | _ => types_StringNull
       end;
     PruneBackups :=
       match storageData !! "prune-backups" with
       | Some (any_string val) => types_StringValue val
       | _ => types_StringNull
       end |}.

(** [for i, storageData := range storageResponse.Data { ...; storages[i] = storage }],
    from index [i] on. *)
Fixpoint convert_loop (w : World) (i : nat) (data : list (gmap string any))
    (storages : list StorageModel) : list StorageModel :=
  match data with
  | [] => storages
  | storageData :: data' =>
      convert_loop w (S i) data' (<[i := convert_storage w storageData]> storages)
  end.

(** [storages := make([]StorageModel, len(storageResponse.Data))] and the loop;
    every index the loop assigns is below the length of [storages], so the
    assignment never panics. *)
Definition convert_response (w : World) (data : list (gmap string any))
  : list StorageModel :=
  convert_loop w 0 data (replicate (length data) StorageModel_zero).

(** A call either returns or panics (nil pointer dereference). *)
Inductive outcome (A : Type) : Type :=
| Returns (a : A)
| Panics.
Arguments Returns {A} a.
Arguments Panics {A}.

(** [func (d *StoragesDataSource) Read(ctx, req, resp)].  [resp.State.Set]
    stores the model; the diagnostics it could add concern the schema, not the
    data, and are taken to be none. *)
Definition StoragesDataSource_Read (w : World) (d : StoragesDataSource)
    (req : datasource_ReadRequest) (resp : datasource_ReadResponse)
  : IO (outcome datasource_ReadResponse) :=
  let '(diags, data) := rr_Config_Get req in
  let resp :=
    {| State := State resp;
       rs_Diagnostics := Diagnostics_Append (rs_Diagnostics resp) diags |} in
  if Diagnostics_HasError (rs_Diagnostics resp) then mret (Returns resp)
  else
    match client d with
    | None => mret Panics
    | Some c =>
        r ← ProxmoxClient_DoRequest w c "GET" "/storage" None;
        match r with
        | inl err =>
            mret (Returns (rs_AddError resp "Client Error"
                             (WithError "Unable to read storages, got error: " err)))
        | inr httpResp =>
            if negb (StatusCode httpResp =? http_StatusOK) then
              let '(body, _) := io_ReadAll (Body httpResp) in
              mret (Returns (rs_AddError resp "API Error"
                (Plain ("Unable to read storages, got status "
                        +:+ fmt_d (StatusCode httpResp) +:+ ": " +:+ body))))
            else
              match io_ReadAll (Body httpResp) with
              | (_, Some err) =>
                  mret (Returns (rs_AddError resp "Read Error"
                                   (WithError "Unable to read response body: " err)))
              | (body, None) =>
                  match json_Unmarshal body with
                  | inl err =>
                      mret (Returns (rs_AddError resp "Parse Error"
                                       (WithError "Unable to parse response: " err)))
                  | inr storageResponse =>
                      let storages := convert_response w (Data storageResponse) in
                      let data :=
                        {| ID := types_StringValue "storages"; Storages := storages |} in
                      mret (Returns {| State := Some data;
                                       rs_Diagnostics := rs_Diagnostics resp |})
                  end
              end
        end
    end.

(* --------------------------------------------------------------------- *)
(** ** Vocabulary of the properties                                       *)
(* --------------------------------------------------------------------- *)

(** The response of [Configure] once the diagnostics of [req.Config.Get] are
    appended. *)
Definition cr_decoded (req : provider_ConfigureRequest)
    (resp : provider_ConfigureResponse) : provider_ConfigureResponse :=
  {| cr_Diagnostics := Diagnostics_Append (cr_Diagnostics resp) (fst (Config_Get req));
     DataSourceData := DataSourceData resp;
     ResourceData := ResourceData resp |}.

(** The response of [Read] once the diagnostics of [req.Config.Get] are appended. *)
Definition rs_decoded (req : datasource_ReadRequest)
    (resp : datasource_ReadResponse) : datasource_ReadResponse :=
  {| State := State resp;
     rs_Diagnostics := Diagnostics_Append (rs_Diagnostics resp) (fst (rr_Config_Get req)) |}.

(** The shape of a failing [Configure]: one error added to the decoded
    response, both client slots as they were. *)
Definition cr_failed (req : provider_ConfigureRequest)
    (resp : provider_ConfigureResponse) (summary : string)
    (resp' : provider_ConfigureResponse) : Prop :=
  exists det : string,
    resp' = {| cr_Diagnostics :=
                 cr_Diagnostics (cr_decoded req resp)
                 ++ [diag_NewErrorDiagnostic summary (Plain det)];
               DataSourceData := DataSourceData resp;
               ResourceData := ResourceData resp |}.

(** The response of a [Read] that succeeds with [storages]. *)
Definition rs_succeeded (req : datasource_ReadRequest) (resp : datasource_ReadResponse)
    (storages : list StorageModel) : datasource_ReadResponse :=
  {| State := Some {| ID := types_StringValue "storages"; Storages := storages |};
     rs_Diagnostics := rs_Diagnostics (rs_decoded req resp) |}.

(** The response of a [Read] that fails: one error added to the decoded
    response, the state as it was. *)
Definition rs_failed (req : datasource_ReadRequest) (resp : datasource_ReadResponse)
    (summary : string) (d : detail) : datasource_ReadResponse :=
  {| State := State resp;
     rs_Diagnostics :=
       rs_Diagnostics (rs_decoded req resp) ++ [diag_NewErrorDiagnostic summary d] |}.

(** The exact value of a finite [float64] as a fraction whose denominator is
    a power of two. *)
Definition float64_fraction (f : float64) : option (Z * Z) :=
  match f with
  | S754_zero _ => Some (0, 1)
  | S754_finite s m e =>
      Some (cond_Zopp s (Z.pos m * 2 ^ Z.max e 0), 2 ^ Z.max (- e) 0)
  | S754_infinity _ | S754_nan => None
  end.

(** The value truncated to an integer, in the words of the specification:
    the quotient of the fraction rounded toward zero. *)
Definition truncate_toward_zero (f : float64) : option Z :=
  '(n, d) ← float64_fraction f; Some (n ÷ d).

(** A JSON value without the top-level field: anything but an object, or an
    object none of whose keys selects the field [data]. *)
Definition lacks_data_field (v : json_value) : bool :=
  match v with
  | JObject ms => forallb (fun kx => negb (key_matches_field kx.1 "data")) ms
  | _ => true
  end.

(** The type error of decoding a top-level array, string, number or boolean
    into the struct. *)
Definition top_level_type_error (v : json_value) : option error :=
  match v with
  | JArray _ => Some (json_UnmarshalTypeError "array")
  | JString _ => Some (json_UnmarshalTypeError "string")
  | JNumber _ => Some (json_UnmarshalTypeError "number")
  | JBool _ => Some (json_UnmarshalTypeError "bool")
  | JNull | JObject _ => None
  end.

(** The request [Read] builds for the client [c]. *)
Definition storage_request (c : ProxmoxClient) : http_Request :=
  {| Method := "GET";
     URL := strings_TrimSuffix (Endpoint c) "/" +:+ "/api2/json/storage";
     Header :=
       {[ "Authorization" := ["PVEAPIToken=" +:+ TokenID c +:+ "=" +:+ TokenSecret c];
          "Content-Type" := ["application/json"] ]};
     RequestBody := EmptyString |}.

(* --------------------------------------------------------------------- *)
(** ** Sample values                                                      *)
(* --------------------------------------------------------------------- *)

(** Sample JSON texts are written with an apostrophe for the double quote. *)
Definition json_text (s : string) : string :=
  string_of_list_ascii
    (map (fun c => if Ascii.eqb c "'" then byte quote_byte else c)
       (list_ascii_of_string s)).

(** A world that answers every request with [answer], accepts every URL
    without control bytes, and converts like amd64. *)
Definition sample_world (answer : error + http_Response) : World :=
  {| roundTrip := fun _ _ => answer;
     url_syntax_error := fun _ => None;
     json_Encode := fun _ => inr EmptyString;
     float64_to_int64_overflow := fun _ => int64_min |}.

Definition ok_response (body : string) : error + http_Response :=
  inr {| StatusCode := 200; Body := (body, None) |}.

Definition sample_config (endpoint tokenID tokenSecret : types_String)
  : provider_ConfigureRequest :=
  {| Config_Get := ([], {| pm_Endpoint := endpoint; pm_TokenID := tokenID;
                           pm_TokenSecret := tokenSecret; pm_SkipVerify := Null |}) |}.

Definition fresh_ConfigureResponse : provider_ConfigureResponse :=
  {| cr_Diagnostics := []; DataSourceData := None; ResourceData := None |}.

Definition sample_client (endpoint : string) : ProxmoxClient :=
  {| HTTPClient := {| Transport := {| TLSClientConfig := None |} |};
     Endpoint := endpoint; TokenID := "root@pam!terraform"; TokenSecret := "secret" |}.

Definition sample_source (endpoint : string) : StoragesDataSource :=
  {| client := Some (sample_client endpoint) |}.

Definition sample_ReadRequest : datasource_ReadRequest :=
  {| rr_Config_Get := ([], {| ID := Null; Storages := [] |}) |}.

Definition fresh_ReadResponse : datasource_ReadResponse :=
  {| State := None; rs_Diagnostics := [] |}.

(** The body of the specification's example and the raw record it decodes to. *)
Definition sample_body : string :=
  json_text "{'data':[{'storage':'local','type':'dir','priority':10}]}".

Definition sample_record : gmap string any :=
  <["priority" := any_float64 (S754_finite false 5629499534213120 (-49))]>
    (<["type" := any_string "dir"]> (<["storage" := any_string "local"]> ∅)).

(** The [StorageModel] the example expects. *)
Definition sample_storage : StorageModel :=
  {| Storage := types_StringValue "local";
     Type_ := types_StringValue "dir";
     Content := types_StringNull;
     Path := types_StringNull;
     Priority := types_Int64Value 10;
     Digest := types_StringNull;
     PruneBackups := types_StringNull |}.

(* --------------------------------------------------------------------- *)
(** ** The provider and its data source together                          *)
(* --------------------------------------------------------------------- *)

(** [NewStoragesDataSource()]: a data source that has no client yet. *)
Definition NewStoragesDataSource : StoragesDataSource := {| client := None |}.

(** The framework passes what the provider left in [resp.DataSourceData] to
    [Configure] of each data source, as [req.ProviderData]. *)
Definition ProviderData_of (data : option ProxmoxClient) : ProviderData_t :=
  match data with
  | Some c => ProviderData_client c
  | None => ProviderData_nil
  end.

(** The client [c] with the endpoint [endpoint]. *)
Definition with_Endpoint (c : ProxmoxClient) (endpoint : string) : ProxmoxClient :=
  {| HTTPClient := HTTPClient c; Endpoint := endpoint;
     TokenID := TokenID c; TokenSecret := TokenSecret c |}.

(** The keys of a raw record that [Read] looks at. *)
Definition known_keys : list string :=
  ["storage"; "type"; "content"; "path"; "priority"; "digest"; "prune-backups"].

(** The summaries of the errors [Configure] adds. *)
Definition Configure_summaries : list string :=
  ["Missing Configuration"; "Invalid Token ID Format"].

(** The summaries of the errors [Read] adds. *)
Definition Read_summaries : list string :=
  ["Client Error"; "API Error"; "Read Error"; "Parse Error"].

(** An element of the data array that decodes into a map: an object or null. *)
Definition is_object_or_null (v : json_value) : bool :=
  match v with
  | JObject _ | JNull => true
  | _ => false
  end.

(** A value of the data member that cannot be decoded into a slice of maps:
    neither null nor an array of objects and nulls. *)
Definition bad_data_value (v : json_value) : bool :=
  match v with
  | JNull => false
  | JArray elems => negb (forallb is_object_or_null elems)
  | _ => true
  end.

(** A non-empty run of decimal digits. *)
Definition all_digits (lit : string) : bool :=
  negb (String.eqb lit EmptyString) && forallb is_digit (list_ascii_of_string lit).

(** A response body with one record, whose only member is the priority [z]
    written in decimal. *)
Definition priority_body (z : Z) : string :=
  json_text "{'data':[{'priority':" +:+ fmt_d z +:+ "}]}".

(** The six string fields of a [StorageModel], each with the key of the raw
    record it is read from. *)
Definition string_fields : list (string * (StorageModel -> types_String)) :=
  [("storage", Storage); ("type", Type_); ("content", Content); ("path", Path);
   ("digest", Digest); ("prune-backups", PruneBackups)].

(** Every number literal inside [v] has a [float64] value, that is,
    [strconv.ParseFloat] reports no range error for it. *)
Fixpoint numbers_in_range (v : json_value) : bool :=
  match v with
  | JNumber lit => bool_decide (is_Some (strconv_ParseFloat lit))
  | JArray elems => forallb numbers_in_range elems
  | JObject members => forallb (fun kx => numbers_in_range kx.2) members
  | JNull | JBool _ | JString _ => true
  end.

(** Induction over a JSON value that reaches the elements of its arrays and
    the values of its members. *)
Section json_value_nested_ind.
Variable P : json_value -> Prop.
Hypothesis HNull : P JNull.
Hypothesis HBool : forall b, P (JBool b).
Hypothesis HNumber : forall lit, P (JNumber lit).
Hypothesis HString : forall s, P (JString s).
Hypothesis HArray : forall elems, Forall P elems -> P (JArray elems).
Hypothesis HObject : forall members, Forall (fun kx => P kx.2) members -> P (JObject members).

Fixpoint json_value_nested_ind (v : json_value) : P v :=
  match v with
  | JNull => HNull
  | JBool b => HBool b
  | JNumber lit => HNumber lit
  | JString s => HString s
  | JArray elems =>
      HArray elems
        ((fix go (l : list json_value) : Forall P l :=
            match l with
            | [] => List.Forall_nil P
            | x :: l' => @List.Forall_cons _ P x l' (json_value_nested_ind x) (go l')
            end) elems)
  | JObject members =>
      HObject members
        ((fix go (l : list (string * json_value)) : Forall (fun kx => P kx.2) l :=
            match l with
            | [] => List.Forall_nil _
            | kx :: l' =>
                @List.Forall_cons _ (fun kx => P kx.2) kx l'
                  (json_value_nested_ind kx.2) (go l')
            end) members)
  end.
End json_value_nested_ind.

(* ===================================================================== *)
(** * Part II.  Properties                                                *)
(* ===================================================================== *)

(* --------------------------------------------------------------------- *)
(** ** Diagnostics                                                        *)
(* --------------------------------------------------------------------- *)

Lemma HasError_app (l1 l2 : list Diagnostic) :
  Diagnostics_HasError (l1 ++ l2) = Diagnostics_HasError l1 || Diagnostics_HasError l2.
Proof. unfold Diagnostics_HasError. apply existsb_app. Qed.

Lemma HasError_elem (diags : list Diagnostic) (d : Diagnostic) :
  d ∈ diags -> severity d = SeverityError -> Diagnostics_HasError diags = true.
Proof.
  intros Hin Hsev. unfold Diagnostics_HasError.
  apply existsb_exists. exists d. split.
  - by apply list_elem_of_In.
  - by apply bool_decide_eq_true.
Qed.

(** [AddError] on diagnostics without an error appends the new one. *)
Lemma AddError_fresh (diags : list Diagnostic) (summary : string) (d : detail) :
  Diagnostics_HasError diags = false ->
  Diagnostics_AddError diags summary d = diags ++ [diag_NewErrorDiagnostic summary d].
Proof.
  intros Hno. unfold Diagnostics_AddError. simpl.
  unfold Diagnostics_Contains. case_bool_decide as Hin; [|done].
  rewrite (HasError_elem _ _ Hin) in Hno; [discriminate | done].
Qed.

(** After [AddError] the diagnostics hold an error. *)
Lemma HasError_AddError (diags : list Diagnostic) (summary : string) (d : detail) :
  Diagnostics_HasError (Diagnostics_AddError diags summary d) = true.
Proof.
  unfold Diagnostics_AddError. simpl.
  unfold Diagnostics_Contains. case_bool_decide as Hin.
  - by apply (HasError_elem _ _ Hin).
  - rewrite HasError_app. simpl. by rewrite orb_true_r.
Qed.

(* --------------------------------------------------------------------- *)
(** ** Strings                                                            *)
(* --------------------------------------------------------------------- *)

Lemma length_append (s t : string) :
  String.length (s +:+ t) = (String.length s + String.length t)%nat.
Proof. induction s as [|c s IH]; simpl; [done | by rewrite IH]. Qed.

Lemma substring_prefix_append (s t : string) :
  substring 0 (String.length s) (s +:+ t) = s.
Proof.
  induction s as [|c s IH]; simpl.
  - by destruct t.
  - by rewrite IH.
Qed.

Lemma substring_all (t : string) : substring 0 (String.length t) t = t.
Proof. induction t as [|c t IH]; simpl; [done | by rewrite IH]. Qed.

Lemma substring_suffix_append (s t : string) :
  substring (String.length s) (String.length t) (s +:+ t) = t.
Proof. induction s as [|c s IH]; simpl; [apply substring_all | done]. Qed.

Lemma HasSuffix_append (s t : string) : strings_HasSuffix (s +:+ t) t = true.
Proof.
  unfold strings_HasSuffix. rewrite length_append.
  replace (String.length s + String.length t - String.length t)%nat
    with (String.length s) by lia.
  rewrite substring_suffix_append, String.eqb_refl, andb_true_r.
  apply Nat.leb_le. lia.
Qed.

(** [TrimSuffix] removes the suffix, once. *)
Lemma TrimSuffix_append (s t : string) : strings_TrimSuffix (s +:+ t) t = s.
Proof.
  unfold strings_TrimSuffix. rewrite HasSuffix_append, length_append.
  replace (String.length s + String.length t - String.length t)%nat
    with (String.length s) by lia.
  apply substring_prefix_append.
Qed.

Lemma TrimSuffix_without (s t : string) :
  strings_HasSuffix s t = false -> strings_TrimSuffix s t = s.
Proof. intros H. unfold strings_TrimSuffix. by rewrite H. Qed.

(** [strings.Contains] for a one-byte string: the byte occurs in [s]. *)
Lemma Contains_byte (s : string) (c : ascii) :
  strings_Contains s (String c EmptyString) = true <-> In c (list_ascii_of_string s).
Proof.
  induction s as [|b s IH]; simpl.
  - split; [discriminate | done].
  - destruct (ascii_dec c b) as [->|Hne].
    + split; [by left | intros _].
      by destruct s.
    + simpl. rewrite IH. split; [by right|]. intros [Heq|Hin]; [by subst | done].
Qed.

(* --------------------------------------------------------------------- *)
(** ** [ProxmoxProvider.Configure]                                        *)
(* --------------------------------------------------------------------- *)

(** [Configure] never hands a request to an HTTP client. *)
Lemma Configure_log (req : provider_ConfigureRequest)
    (resp : provider_ConfigureResponse) (log : list http_Request) :
  (ProxmoxProvider_Configure req resp log).2 = log.
Proof.
  unfold ProxmoxProvider_Configure. destruct req as [[diags data]].
  repeat (case_match; try done).
Qed.

(** [Configure] when every check passes. *)
Lemma Configure_success (req : provider_ConfigureRequest)
    (resp : provider_ConfigureResponse) (log : list http_Request) :
  let data := (Config_Get req).2 in
  Diagnostics_HasError (cr_Diagnostics (cr_decoded req resp)) = false ->
  IsNull (pm_Endpoint data) = false ->
  IsNull (pm_TokenID data) = false ->
  IsNull (pm_TokenSecret data) = false ->
  strings_Contains (ValueString (pm_TokenID data)) "!" = true ->
  exists c : ProxmoxClient,
    ProxmoxProvider_Configure req resp log =
      ({| cr_Diagnostics := cr_Diagnostics (cr_decoded req resp);
          DataSourceData := Some c; ResourceData := Some c |}, log)
    /\ Endpoint c = ValueString (pm_Endpoint data)
    /\ TokenID c = ValueString (pm_TokenID data)
    /\ TokenSecret c = ValueString (pm_TokenSecret data).
Proof.
  unfold ProxmoxProvider_Configure, cr_decoded.
  destruct req as [[diags data]]; simpl.
  intros -> -> -> -> ->. simpl. eauto.
Qed.

(** A [Configure] that leaves no error diagnostic passed every check. *)
Lemma Configure_no_error_inv (req : provider_ConfigureRequest)
    (resp : provider_ConfigureResponse) (log : list http_Request) :
  let data := (Config_Get req).2 in
  Diagnostics_HasError (cr_Diagnostics (ProxmoxProvider_Configure req resp log).1) = false ->
  Diagnostics_HasError (cr_Diagnostics (cr_decoded req resp)) = false
  /\ IsNull (pm_Endpoint data) = false
  /\ IsNull (pm_TokenID data) = false
  /\ IsNull (pm_TokenSecret data) = false
  /\ strings_Contains (ValueString (pm_TokenID data)) "!" = true.
Proof.
  unfold ProxmoxProvider_Configure, cr_decoded.
  destruct req as [[diags data]]; simpl.
  destruct (Diagnostics_HasError (Diagnostics_Append (cr_Diagnostics resp) diags)) eqn:E0;
    simpl; [by rewrite E0|].
  destruct (IsNull (pm_Endpoint data)); simpl;
    [unfold cr_AddError; simpl; by rewrite HasError_AddError|].
  destruct (IsNull (pm_TokenID data)); simpl;
    [unfold cr_AddError; simpl; by rewrite HasError_AddError|].
  destruct (IsNull (pm_TokenSecret data)); simpl;
    [unfold cr_AddError; simpl; by rewrite HasError_AddError|].
  destruct (strings_Contains (ValueString (pm_TokenID data)) "!"); simpl;
    [done | unfold cr_AddError; simpl; by rewrite HasError_AddError].
Qed.

(** The log of [DoRequest] grows by at most one request, whose URL is the
    endpoint less one trailing slash, the API prefix and the path. *)
Lemma DoRequest_url (w : World) (c : ProxmoxClient) (method path : string)
    (body : option any) (log : list http_Request) :
  (ProxmoxClient_DoRequest w c method path body log).2 = log
  \/ exists rq : http_Request,
       (ProxmoxClient_DoRequest w c method path body log).2 = log ++ [rq]
       /\ URL rq = strings_TrimSuffix (Endpoint c) "/" +:+ "/api2/json" +:+ path.
Proof.
  unfold ProxmoxClient_DoRequest, http_NewRequest.
  destruct (match body with Some b => json_Encode w b | None => inr EmptyString end);
    [left; reflexivity|].
  destruct (negb (validMethod _)); [left; reflexivity|].
  destruct (url_Parse w _); [left; reflexivity|].
  right. eexists. split; reflexivity.
Qed.

(** C4 (as stated, refuted): configured with the endpoint https://pve:8006/
    and valid credentials, [Configure] succeeds and the Endpoint field of the
    client it produces still ends in a slash. *)
Lemma configure_keeps_trailing_slash :
  let resp' :=
    (ProxmoxProvider_Configure
       (sample_config (Known "https://pve:8006/") (Known "root@pam!terraform")
          (Known "secret"))
       fresh_ConfigureResponse []).1 in
  cr_Diagnostics resp' = []
  /\ DataSourceData resp' = Some (sample_client "https://pve:8006/")
  /\ strings_HasSuffix (Endpoint (sample_client "https://pve:8006/")) "/" = true.
Proof. repeat split; vm_compute; reflexivity. Qed.

(** C4 (amended): for every configuration that [Configure] accepts, the
    client it produces holds the configured endpoint unchanged; the trailing
    slash is trimmed later, once, when [DoRequest] builds a request URL: the
    URL is the endpoint less one trailing slash, followed by the fixed prefix
    /api2/json and the path. *)
Theorem configure_stores_endpoint_verbatim
    (req : provider_ConfigureRequest) (resp : provider_ConfigureResponse)
    (log : list http_Request) :
  Diagnostics_HasError
    (cr_Diagnostics (ProxmoxProvider_Configure req resp log).1) = false ->
  exists c : ProxmoxClient,
    DataSourceData (ProxmoxProvider_Configure req resp log).1 = Some c
    /\ ResourceData (ProxmoxProvider_Configure req resp log).1 = Some c
    /\ Endpoint c = ValueString (pm_Endpoint (Config_Get req).2)
    /\ (forall s : string,
          Endpoint c = s +:+ "/" -> strings_TrimSuffix (Endpoint c) "/" = s)
    /\ (strings_HasSuffix (Endpoint c) "/" = false ->
          strings_TrimSuffix (Endpoint c) "/" = Endpoint c)
    /\ (forall (w : World) (method path : string) (log1 : list http_Request),
          (ProxmoxClient_DoRequest w c method path None log1).2 = log1
          \/ exists rq : http_Request,
               (ProxmoxClient_DoRequest w c method path None log1).2 = log1 ++ [rq]
               /\ URL rq =
                    strings_TrimSuffix (Endpoint c) "/" +:+ "/api2/json" +:+ path).
Proof.
  intros Hok.
  destruct (Configure_no_error_inv req resp log Hok) as (H0 & H1 & H2 & H3 & H4).
  destruct (Configure_success req resp log H0 H1 H2 H3 H4) as (c & Heq & He & _ & _).
  exists c. rewrite Heq. simpl. repeat split; try done.
  - intros s Hs. rewrite Hs. apply TrimSuffix_append.
  - apply TrimSuffix_without.
  - intros w method path log1. apply DoRequest_url.
Qed.

Lemma configure_stores_endpoint_verbatim_witness :
  let req :=
    sample_config (Known "https://pve:8006/") (Known "root@pam!terraform")
      (Known "secret") in
  exists c : ProxmoxClient,
    DataSourceData (ProxmoxProvider_Configure req fresh_ConfigureResponse []).1 = Some c
    /\ ResourceData (ProxmoxProvider_Configure req fresh_ConfigureResponse []).1 = Some c
    /\ Endpoint c = "https://pve:8006/"
    /\ (forall s : string,
          Endpoint c = s +:+ "/" -> strings_TrimSuffix (Endpoint c) "/" = s)
    /\ (strings_HasSuffix (Endpoint c) "/" = false ->
          strings_TrimSuffix (Endpoint c) "/" = Endpoint c)
    /\ (forall (w : World) (method path : string) (log1 : list http_Request),
          (ProxmoxClient_DoRequest w c method path None log1).2 = log1
          \/ exists rq : http_Request,
               (ProxmoxClient_DoRequest w c method path None log1).2 = log1 ++ [rq]
               /\ URL rq =
                    strings_TrimSuffix (Endpoint c) "/" +:+ "/api2/json" +:+ path).
Proof.
  apply (configure_stores_endpoint_verbatim
           (sample_config (Known "https://pve:8006/") (Known "root@pam!terraform")
              (Known "secret"))
           fresh_ConfigureResponse []).
  vm_compute. reflexivity.
Defined.

(** C5 (the code at the failing input): with the endpoint the empty string
    and valid credentials, [Configure] reports nothing and produces a client
    whose endpoint is empty. *)
Lemma configure_accepts_empty_endpoint :
  ProxmoxProvider_Configure
    (sample_config (Known EmptyString) (Known "root@pam!terraform") (Known "secret"))
    fresh_ConfigureResponse []
  = ({| cr_Diagnostics := [];
        DataSourceData := Some (sample_client EmptyString);
        ResourceData := Some (sample_client EmptyString) |}, []).
Proof. vm_compute. reflexivity. Qed.

(** X1: an absent (null) endpoint, token identifier or token secret makes
    [Configure] fail with a Missing Configuration error, and no client is
    produced: the part of C5 that holds. *)
Lemma configure_missing_required
    (req : provider_ConfigureRequest) (resp : provider_ConfigureResponse)
    (log : list http_Request) :
  let data := (Config_Get req).2 in
  Diagnostics_HasError (cr_Diagnostics (cr_decoded req resp)) = false ->
  IsNull (pm_Endpoint data) || IsNull (pm_TokenID data)
    || IsNull (pm_TokenSecret data) = true ->
  cr_failed req resp "Missing Configuration" (ProxmoxProvider_Configure req resp log).1
  /\ (ProxmoxProvider_Configure req resp log).2 = log.
Proof.
  intros data H0 Hnull. split; [|apply Configure_log].
  revert H0 Hnull. subst data.
  unfold ProxmoxProvider_Configure, cr_failed, cr_decoded, cr_AddError.
  destruct req as [[diags data]]; simpl. intros H0 Hnull. rewrite H0.
  destruct (IsNull (pm_Endpoint data)); simpl;
    [rewrite AddError_fresh by done; eauto|].
  destruct (IsNull (pm_TokenID data)); simpl;
    [rewrite AddError_fresh by done; eauto|].
  destruct (IsNull (pm_TokenSecret data)); simpl;
    [rewrite AddError_fresh by done; eauto | done].
Qed.

(** C6: for every token identifier without the separator !, [Configure]
    fails: it leaves an error diagnostic, leaves both client slots as they
    were (no client is produced) and hands no request to an HTTP client; the
    error it adds is Invalid Token ID Format whenever the checks that come
    first pass, that is, the configuration decodes and the three required
    values are present. *)
Theorem configure_rejects_token_without_separator
    (req : provider_ConfigureRequest) (resp : provider_ConfigureResponse)
    (log : list http_Request) :
  let data := (Config_Get req).2 in
  let resp' := (ProxmoxProvider_Configure req resp log).1 in
  ~ In "!"%char (list_ascii_of_string (ValueString (pm_TokenID data))) ->
  Diagnostics_HasError (cr_Diagnostics resp') = true
  /\ DataSourceData resp' = DataSourceData resp
  /\ ResourceData resp' = ResourceData resp
  /\ (ProxmoxProvider_Configure req resp log).2 = log
  /\ (Diagnostics_HasError (cr_Diagnostics (cr_decoded req resp)) = false ->
      IsNull (pm_Endpoint data) = false ->
      IsNull (pm_TokenID data) = false ->
      IsNull (pm_TokenSecret data) = false ->
      cr_failed req resp "Invalid Token ID Format" resp').
Proof.
  intros data resp' Hnone.
  assert (Htoken : strings_Contains (ValueString (pm_TokenID data)) "!" = false).
  { apply not_true_is_false. by rewrite Contains_byte. }
  clear Hnone. subst data resp'.
  split; [|split; [|split; [|split; [apply Configure_log|]]]];
    revert Htoken;
    unfold ProxmoxProvider_Configure, cr_failed, cr_decoded, cr_AddError;
    destruct req as [[diags data]];
    cbn [Config_Get fst snd cr_Diagnostics DataSourceData ResourceData];
    intros Htoken; rewrite Htoken; cbn [negb];
    destruct (Diagnostics_HasError (Diagnostics_Append (cr_Diagnostics resp) diags))
      eqn:Hdecoded;
    destruct (IsNull (pm_Endpoint data));
    destruct (IsNull (pm_TokenID data));
    destruct (IsNull (pm_TokenSecret data));
    cbn [fst cr_Diagnostics DataSourceData ResourceData mret IO_ret];
    try done; try apply HasError_AddError.
  intros _ _ _ _. rewrite AddError_fresh by done. eauto.
Qed.

(** The token identifier root@pam, with endpoint and secret present. *)
Lemma configure_rejects_token_without_separator_witness :
  let req :=
    sample_config (Known "https://pve:8006") (Known "root@pam") (Known "secret") in
  let resp' := (ProxmoxProvider_Configure req fresh_ConfigureResponse []).1 in
  Diagnostics_HasError (cr_Diagnostics resp') = true
  /\ DataSourceData resp' = None
  /\ ResourceData resp' = None
  /\ (ProxmoxProvider_Configure req fresh_ConfigureResponse []).2 = []
  /\ (Diagnostics_HasError (cr_Diagnostics (cr_decoded req fresh_ConfigureResponse))
      = false ->
      IsNull (Known "https://pve:8006") = false ->
      IsNull (Known "root@pam") = false ->
      IsNull (Known "secret") = false ->
      cr_failed req fresh_ConfigureResponse "Invalid Token ID Format" resp').
Proof.
  apply (configure_rejects_token_without_separator
           (sample_config (Known "https://pve:8006") (Known "root@pam") (Known "secret"))
           fresh_ConfigureResponse []).
  intros Hin. apply Contains_byte in Hin. vm_compute in Hin. discriminate.
Defined.

(* --------------------------------------------------------------------- *)
(** ** The conversion [int64(f)]                                          *)
(* --------------------------------------------------------------------- *)

Lemma to_int64_in_int64 (z : Z) : in_int64 (to_int64 z) = true.
Proof.
  unfold in_int64, to_int64, int64_min, int64_max.
  pose proof (Z.mod_pos_bound (z + 2 ^ 63) (2 ^ 64) ltac:(lia)) as Hb.
  apply andb_true_intro. split; apply Z.leb_le; lia.
Qed.

Lemma int64_of_float64_in_int64 (w : World) (f : float64) :
  in_int64 (int64_of_float64 w f) = true.
Proof.
  unfold int64_of_float64.
  destruct (float64_truncate f) as [z|]; [|apply to_int64_in_int64].
  destruct (in_int64 z) eqn:E; [done | apply to_int64_in_int64].
Qed.

(** The code's integer part, a shift of the mantissa, is the value truncated
    toward zero. *)
Lemma float64_truncate_toward_zero (f : float64) :
  float64_truncate f = truncate_toward_zero f.
Proof.
  destruct f as [s|s| |s m e]; try done.
  unfold float64_truncate, truncate_toward_zero, float64_fraction.
  cbn [mbind option_bind].
  f_equal. destruct (Z.le_gt_cases 0 e) as [He|He].
  - rewrite Z.shiftl_mul_pow2 by done.
    rewrite (Z.max_l e 0), (Z.max_r (- e) 0) by lia.
    change (2 ^ 0) with 1. by rewrite Z.quot_1_r.
  - rewrite Z.shiftl_div_pow2 by lia.
    rewrite (Z.max_r e 0), (Z.max_l (- e) 0) by lia.
    change (2 ^ 0) with 1. rewrite Z.mul_1_r.
    assert (Hd : 0 < 2 ^ (- e)) by (apply Z.pow_pos_nonneg; lia).
    destruct s; unfold cond_Zopp.
    + rewrite Z.quot_opp_l by lia. f_equal.
      symmetry. apply Z.quot_div_nonneg; lia.
    + symmetry. apply Z.quot_div_nonneg; lia.
Qed.

(* --------------------------------------------------------------------- *)
(** ** The conversion loop                                                *)
(* --------------------------------------------------------------------- *)

(** Invariant of the loop: the slots below [i] are filled, and the loop fills
    the remaining ones from the remaining records, in order. *)
Lemma convert_loop_fills (w : World) (data : list (gmap string any))
    (done_ rest : list StorageModel) :
  length rest = length data ->
  convert_loop w (length done_) data (done_ ++ rest)
  = done_ ++ map (convert_storage w) data.
Proof.
  revert done_ rest.
  induction data as [|storageData data IH]; intros done_ rest Hlen; simpl.
  - destruct rest; [done | discriminate].
  - destruct rest as [|slot rest]; [discriminate|].
    replace (<[length done_ := convert_storage w storageData]> (done_ ++ slot :: rest))
      with ((done_ ++ [convert_storage w storageData]) ++ rest).
    + replace (S (length done_))
        with (length (done_ ++ [convert_storage w storageData]))
        by (rewrite length_app; simpl; lia).
      rewrite IH by (simpl in Hlen; lia).
      by rewrite <- app_assoc.
    + rewrite <- app_assoc. simpl.
      rewrite insert_app_r_alt by lia. by rewrite Nat.sub_diag.
Qed.

(** The conversion is a map over the records: one model per record, in order. *)
Lemma convert_response_map (w : World) (data : list (gmap string any)) :
  convert_response w data = map (convert_storage w) data.
Proof.
  unfold convert_response.
  apply (convert_loop_fills w data [] (replicate (length data) StorageModel_zero)).
  apply length_replicate.
Qed.

(* --------------------------------------------------------------------- *)
(** ** [StoragesDataSource.Read], path by path                            *)
(* --------------------------------------------------------------------- *)

Section Read_paths.
Variables (w : World) (d : StoragesDataSource) (c : ProxmoxClient).
Variables (req : datasource_ReadRequest) (resp : datasource_ReadResponse).
Variables (log log' : list http_Request).

Hypothesis Hclient : client d = Some c.
Hypothesis Hdecoded : Diagnostics_HasError (rs_Diagnostics (rs_decoded req resp)) = false.

(** [Read] up to the answer of the request. *)
Lemma Read_request (r : error + http_Response) :
  ProxmoxClient_DoRequest w c "GET" "/storage" None log = (r, log') ->
  StoragesDataSource_Read w d req resp log =
    match r with
    | inl err =>
        (Returns (rs_failed req resp "Client Error"
                    (WithError "Unable to read storages, got error: " err)), log')
    | inr httpResp =>
        if negb (StatusCode httpResp =? http_StatusOK) then
          (Returns (rs_failed req resp "API Error"
             (Plain ("Unable to read storages, got status "
                     +:+ fmt_d (StatusCode httpResp) +:+ ": "
                     +:+ (Body httpResp).1))), log')
        else
          match (Body httpResp).2 with
          | Some err =>
              (Returns (rs_failed req resp "Read Error"
                          (WithError "Unable to read response body: " err)), log')
          | None =>
              match json_Unmarshal (Body httpResp).1 with
              | inl err =>
                  (Returns (rs_failed req resp "Parse Error"
                              (WithError "Unable to parse response: " err)), log')
              | inr storageResponse =>
                  (Returns (rs_succeeded req resp
                              (map (convert_storage w) (Data storageResponse))), log')
              end
          end
    end.
Proof.
  intros Hdo. revert Hdecoded.
  unfold StoragesDataSource_Read, rs_decoded, rs_failed, rs_succeeded, rs_AddError.
  destruct req as [[diags data]].
  cbn [rr_Config_Get fst snd rs_Diagnostics State].
  intros Hno. rewrite Hno, Hclient.
  unfold mbind, IO_bind. rewrite Hdo.
  destruct r as [err|httpResp].
  - by rewrite AddError_fresh.
  - destruct (negb (StatusCode httpResp =? http_StatusOK)).
    + unfold io_ReadAll. destruct (Body httpResp) as [body oerr].
      by rewrite AddError_fresh.
    + unfold io_ReadAll. destruct (Body httpResp) as [body [err|]].
      * by rewrite AddError_fresh.
      * cbn [fst snd]. destruct (json_Unmarshal body) as [err|sr].
        -- by rewrite AddError_fresh.
        -- by rewrite convert_response_map.
Qed.
End Read_paths.

(** Rewrites a [Read] whose request was answered 200 with a body read in full. *)
Ltac read_answered_ok Hclient Hdecoded Hdo :=
  rewrite (Read_request _ _ _ _ _ _ _ Hclient Hdecoded _ Hdo);
  cbn [StatusCode Body fst snd];
  change (negb (200 =? http_StatusOK)) with false;
  cbv iota.

(** A failed [Read] holds an error diagnostic. *)
Lemma rs_failed_HasError (req : datasource_ReadRequest) (resp : datasource_ReadResponse)
    (summary : string) (det : detail) :
  Diagnostics_HasError (rs_Diagnostics (rs_failed req resp summary det)) = true.
Proof. unfold rs_failed. simpl. rewrite HasError_app. simpl. by rewrite orb_true_r. Qed.

(** When the request is built, [DoRequest] hands exactly it to the client,
    and returns the client's answer. *)
Lemma DoRequest_storage (w : World) (c : ProxmoxClient) (log : list http_Request) :
  url_Parse w (strings_TrimSuffix (Endpoint c) "/" +:+ "/api2/json/storage") = None ->
  ProxmoxClient_DoRequest w c "GET" "/storage" None log
  = (roundTrip w (HTTPClient c) (storage_request c), log ++ [storage_request c]).
Proof.
  intros Hurl. unfold ProxmoxClient_DoRequest, http_NewRequest.
  change (strings_TrimSuffix (Endpoint c) "/" +:+ "/api2/json" +:+ "/storage")
    with (strings_TrimSuffix (Endpoint c) "/" +:+ "/api2/json/storage").
  rewrite Hurl. cbn [String.eqb validMethod negb]. 
  assert (Hreq :
    {| Method := "GET";
       URL := strings_TrimSuffix (Endpoint c) "/" +:+ "/api2/json/storage";
       Header :=
         Header_Set
           (Header_Set ∅ "Authorization"
              ("PVEAPIToken=" +:+ TokenID c +:+ "=" +:+ TokenSecret c))
           "Content-Type" "application/json";
       RequestBody := EmptyString |} = storage_request c).
  { unfold storage_request, Header_Set. f_equal. }
  vm_compute validMethod. cbn [negb Method URL Header RequestBody].
  unfold http_Client_Do. by rewrite <- Hreq.
Qed.

(** When the URL does not parse, [DoRequest] returns the error and hands
    nothing to the client. *)
Lemma DoRequest_bad_url (w : World) (c : ProxmoxClient) (log : list http_Request)
    (err : error) :
  url_Parse w (strings_TrimSuffix (Endpoint c) "/" +:+ "/api2/json/storage") = Some err ->
  ProxmoxClient_DoRequest w c "GET" "/storage" None log = (inl err, log).
Proof.
  intros Hurl. unfold ProxmoxClient_DoRequest, http_NewRequest.
  change (strings_TrimSuffix (Endpoint c) "/" +:+ "/api2/json" +:+ "/storage")
    with (strings_TrimSuffix (Endpoint c) "/" +:+ "/api2/json/storage").
  by rewrite Hurl.
Qed.

(** [Read] returns at once when decoding the configuration left an error. *)
Lemma Read_config_error (w : World) (d : StoragesDataSource)
    (req : datasource_ReadRequest) (resp : datasource_ReadResponse)
    (log : list http_Request) :
  Diagnostics_HasError (rs_Diagnostics (rs_decoded req resp)) = true ->
  StoragesDataSource_Read w d req resp log = (Returns (rs_decoded req resp), log).
Proof.
  unfold StoragesDataSource_Read, rs_decoded. destruct req as [[diags data]].
  cbn [rr_Config_Get fst snd rs_Diagnostics State]. by intros ->.
Qed.

(** [Read] on a data source that was never given a client dereferences nil. *)
Lemma Read_nil_client (w : World) (d : StoragesDataSource)
    (req : datasource_ReadRequest) (resp : datasource_ReadResponse)
    (log : list http_Request) :
  Diagnostics_HasError (rs_Diagnostics (rs_decoded req resp)) = false ->
  client d = None ->
  StoragesDataSource_Read w d req resp log = (Panics, log).
Proof.
  unfold StoragesDataSource_Read, rs_decoded. destruct req as [[diags data]].
  cbn [rr_Config_Get fst snd rs_Diagnostics State]. by intros -> ->.
Qed.

(* --------------------------------------------------------------------- *)
(** ** Decoding                                                           *)
(* --------------------------------------------------------------------- *)

Lemma sample_body_decodes : json_Unmarshal sample_body = inr {| Data := [sample_record] |}.
Proof. vm_compute. reflexivity. Qed.

Lemma sample_record_converts (w : World) :
  convert_storage w sample_record = sample_storage.
Proof. reflexivity. Qed.

(** Members none of which selects the field leave the struct as it is. *)
Lemma object_into_struct_skips (ms : list (string * json_value))
    (sr : storageResponse_t) (saved : option error) :
  forallb (fun kx => negb (key_matches_field kx.1 "data")) ms = true ->
  object_into_struct ms sr saved = (sr, saved).
Proof.
  induction ms as [|kx ms IH]; simpl; [done|].
  intros [Hk Hms]%andb_prop. apply negb_true_iff in Hk. rewrite Hk. by apply IH.
Qed.

(** Decoding a JSON value without the field: a type error for an array, a
    string, a number or a boolean, else the zero struct. *)
Lemma Unmarshal_without_data_field (body : string) (v : json_value) :
  json_parse body = Some v ->
  lacks_data_field v = true ->
  json_Unmarshal body =
    match top_level_type_error v with
    | Some err => inl err
    | None => inr {| Data := [] |}
    end.
Proof.
  intros Hparse Hlacks. unfold json_Unmarshal. rewrite Hparse.
  destruct v; simpl in *; try done.
  by rewrite object_into_struct_skips.
Qed.

(* --------------------------------------------------------------------- *)
(** ** [StoragesDataSource.Read]: what it stores and reports              *)
(* --------------------------------------------------------------------- *)

(** C1: when the request is answered with status 200 and the body
    [{"data":[{"storage":"local","type":"dir","priority":10}]}], [Read] stores
    exactly one record, with storage local, type dir, priority 10, and the
    content, path, digest and prune-backups fields null. *)
Theorem read_projects_sample_body
    (w : World) (d : StoragesDataSource) (c : ProxmoxClient)
    (req : datasource_ReadRequest) (resp : datasource_ReadResponse)
    (log log' : list http_Request) :
  client d = Some c ->
  Diagnostics_HasError (rs_Diagnostics (rs_decoded req resp)) = false ->
  ProxmoxClient_DoRequest w c "GET" "/storage" None log
  = (inr {| StatusCode := 200;
            Body := (json_text "{'data':[{'storage':'local','type':'dir','priority':10}]}",
                     None) |}, log') ->
  StoragesDataSource_Read w d req resp log
  = (Returns
       {| State :=
            Some {| ID := types_StringValue "storages";
                    Storages :=
                      [ {| Storage := types_StringValue "local";
                           Type_ := types_StringValue "dir";
                           Content := types_StringNull;
                           Path := types_StringNull;
                           Priority := types_Int64Value 10;
                           Digest := types_StringNull;
                           PruneBackups := types_StringNull |} ] |};
          rs_Diagnostics := rs_Diagnostics (rs_decoded req resp) |}, log').
Proof.
  intros Hclient Hdecoded Hdo.
  read_answered_ok Hclient Hdecoded Hdo.
  change (json_text "{'data':[{'storage':'local','type':'dir','priority':10}]}")
    with sample_body.
  rewrite sample_body_decodes. cbn [Data map].
  by rewrite sample_record_converts.
Qed.

Lemma read_projects_sample_body_witness :
  StoragesDataSource_Read (sample_world (ok_response sample_body))
    (sample_source "https://pve:8006") sample_ReadRequest fresh_ReadResponse []
  = (Returns
       {| State :=
            Some {| ID := types_StringValue "storages";
                    Storages :=
                      [ {| Storage := types_StringValue "local";
                           Type_ := types_StringValue "dir";
                           Content := types_StringNull;
                           Path := types_StringNull;
                           Priority := types_Int64Value 10;
                           Digest := types_StringNull;
                           PruneBackups := types_StringNull |} ] |};
          rs_Diagnostics := [] |},
     [storage_request (sample_client "https://pve:8006")]).
Proof.
  apply (read_projects_sample_body (sample_world (ok_response sample_body))
           (sample_source "https://pve:8006") (sample_client "https://pve:8006")
           sample_ReadRequest fresh_ReadResponse []
           [storage_request (sample_client "https://pve:8006")]).
  - reflexivity.
  - reflexivity.
  - apply (DoRequest_storage (sample_world (ok_response sample_body))
             (sample_client "https://pve:8006") []).
    vm_compute. reflexivity.
Defined.

(** C2: whenever the body decodes, to a payload [storageResponse], [Read]
    succeeds and stores one [StorageModel] per raw record of
    [storageResponse.Data], in the same order, each the conversion of its
    record: nothing is filtered, reordered or merged.  In particular a payload
    with no record gives a successful result with no record. *)
Theorem read_converts_every_record_in_order
    (w : World) (d : StoragesDataSource) (c : ProxmoxClient)
    (req : datasource_ReadRequest) (resp : datasource_ReadResponse)
    (log log' : list http_Request) (body : string)
    (storageResponse : storageResponse_t) :
  client d = Some c ->
  Diagnostics_HasError (rs_Diagnostics (rs_decoded req resp)) = false ->
  ProxmoxClient_DoRequest w c "GET" "/storage" None log
  = (inr {| StatusCode := 200; Body := (body, None) |}, log') ->
  json_Unmarshal body = inr storageResponse ->
  exists storages : list StorageModel,
    StoragesDataSource_Read w d req resp log
    = (Returns
         {| State := Some {| ID := types_StringValue "storages"; Storages := storages |};
            rs_Diagnostics := rs_Diagnostics (rs_decoded req resp) |}, log')
    /\ length storages = length (Data storageResponse)
    /\ (forall i : nat,
          storages !! i = convert_storage w <$> Data storageResponse !! i)
    /\ (Data storageResponse = [] -> storages = []).
Proof.
  intros Hclient Hdecoded Hdo Hbody.
  exists (map (convert_storage w) (Data storageResponse)).
  read_answered_ok Hclient Hdecoded Hdo.
  rewrite Hbody. repeat split.
  - apply length_map.
  - intros i. apply list_lookup_fmap.
  - by intros ->.
Qed.

Lemma read_converts_every_record_in_order_witness :
  exists storages : list StorageModel,
    StoragesDataSource_Read (sample_world (ok_response (json_text "{'data':[]}")))
      (sample_source "https://pve:8006") sample_ReadRequest fresh_ReadResponse []
    = (Returns
         {| State := Some {| ID := types_StringValue "storages"; Storages := storages |};
            rs_Diagnostics := [] |},
       [storage_request (sample_client "https://pve:8006")])
    /\ length storages = 0%nat
    /\ (forall i : nat,
          storages !! i
          = convert_storage (sample_world (ok_response (json_text "{'data':[]}")))
              <$> ([] : list (gmap string any)) !! i)
    /\ (([] : list (gmap string any)) = [] -> storages = []).
Proof.
  apply (read_converts_every_record_in_order
           (sample_world (ok_response (json_text "{'data':[]}")))
           (sample_source "https://pve:8006") (sample_client "https://pve:8006")
           sample_ReadRequest fresh_ReadResponse []
           [storage_request (sample_client "https://pve:8006")]
           (json_text "{'data':[]}") {| Data := [] |}).
  - reflexivity.
  - reflexivity.
  - apply (DoRequest_storage (sample_world (ok_response (json_text "{'data':[]}")))
             (sample_client "https://pve:8006") []).
    vm_compute. reflexivity.
  - vm_compute. reflexivity.
Defined.

(** C3 (as stated, refuted): answered with status 200 and the body [{}],
    valid JSON without the data key, [Read] reports no error and stores a
    result with no record. *)
Lemma read_accepts_body_without_data_key :
  StoragesDataSource_Read (sample_world (ok_response (json_text "{}")))
    (sample_source "https://pve:8006") sample_ReadRequest fresh_ReadResponse []
  = (Returns {| State := Some {| ID := types_StringValue "storages"; Storages := [] |};
                rs_Diagnostics := [] |},
     [storage_request (sample_client "https://pve:8006")]).
Proof. vm_compute. reflexivity. Qed.

(** C3 (amended): for every body that is valid JSON without the top-level
    field, [Read] fails with a Parse Error when the top-level value is an
    array, a string, a number or a boolean, and succeeds with no record when
    it is null or an object none of whose keys is data in any letter case. *)
Theorem read_body_without_data_field
    (w : World) (d : StoragesDataSource) (c : ProxmoxClient)
    (req : datasource_ReadRequest) (resp : datasource_ReadResponse)
    (log log' : list http_Request) (body : string) (v : json_value) :
  client d = Some c ->
  Diagnostics_HasError (rs_Diagnostics (rs_decoded req resp)) = false ->
  ProxmoxClient_DoRequest w c "GET" "/storage" None log
  = (inr {| StatusCode := 200; Body := (body, None) |}, log') ->
  json_parse body = Some v ->
  lacks_data_field v = true ->
  StoragesDataSource_Read w d req resp log
  = (Returns
       match top_level_type_error v with
       | Some err =>
           rs_failed req resp "Parse Error" (WithError "Unable to parse response: " err)
       | None => rs_succeeded req resp []
       end, log').
Proof.
  intros Hclient Hdecoded Hdo Hparse Hlacks.
  read_answered_ok Hclient Hdecoded Hdo.
  rewrite (Unmarshal_without_data_field body v Hparse Hlacks).
  by destruct (top_level_type_error v).
Qed.

Lemma read_body_without_data_field_witness :
  StoragesDataSource_Read (sample_world (ok_response (json_text "['local','nfs']")))
    (sample_source "https://pve:8006") sample_ReadRequest fresh_ReadResponse []
  = (Returns
       (rs_failed sample_ReadRequest fresh_ReadResponse "Parse Error"
          (WithError "Unable to parse response: " (json_UnmarshalTypeError "array"))),
     [storage_request (sample_client "https://pve:8006")]).
Proof.
  apply (read_body_without_data_field
           (sample_world (ok_response (json_text "['local','nfs']")))
           (sample_source "https://pve:8006") (sample_client "https://pve:8006")
           sample_ReadRequest fresh_ReadResponse []
           [storage_request (sample_client "https://pve:8006")]
           (json_text "['local','nfs']")
           (JArray [JString "local"; JString "nfs"])).
  - reflexivity.
  - reflexivity.
  - apply (DoRequest_storage
             (sample_world (ok_response (json_text "['local','nfs']")))
             (sample_client "https://pve:8006") []).
    vm_compute. reflexivity.
  - vm_compute. reflexivity.
  - reflexivity.
Defined.

(** C7: for every response whose status code is not 200, [Read] fails with
    the API Error diagnostic, whose detail carries the status code in decimal
    and the response body as read; the state is left as it was, so no storage
    record is produced. *)
Theorem read_reports_api_error
    (w : World) (d : StoragesDataSource) (c : ProxmoxClient)
    (req : datasource_ReadRequest) (resp : datasource_ReadResponse)
    (log log' : list http_Request) (httpResp : http_Response) :
  client d = Some c ->
  Diagnostics_HasError (rs_Diagnostics (rs_decoded req resp)) = false ->
  ProxmoxClient_DoRequest w c "GET" "/storage" None log = (inr httpResp, log') ->
  StatusCode httpResp <> 200 ->
  exists resp' : datasource_ReadResponse,
    StoragesDataSource_Read w d req resp log = (Returns resp', log')
    /\ rs_Diagnostics resp'
       = rs_Diagnostics (rs_decoded req resp)
         ++ [diag_NewErrorDiagnostic "API Error"
               (Plain ("Unable to read storages, got status "
                       +:+ fmt_d (StatusCode httpResp) +:+ ": "
                       +:+ (Body httpResp).1))]
    /\ Diagnostics_HasError (rs_Diagnostics resp') = true
    /\ State resp' = State resp.
Proof.
  intros Hclient Hdecoded Hdo Hstatus.
  rewrite (Read_request w d c req resp log log' Hclient Hdecoded _ Hdo).
  assert (Hne : negb (StatusCode httpResp =? http_StatusOK) = true).
  { apply negb_true_iff, Z.eqb_neq. exact Hstatus. }
  rewrite Hne. eexists. split; [reflexivity|].
  split; [reflexivity|]. split; [apply rs_failed_HasError | reflexivity].
Qed.

Lemma read_reports_api_error_witness :
  exists resp' : datasource_ReadResponse,
    StoragesDataSource_Read
      (sample_world (inr {| StatusCode := 401; Body := ("permission denied", None) |}))
      (sample_source "https://pve:8006") sample_ReadRequest fresh_ReadResponse []
    = (Returns resp', [storage_request (sample_client "https://pve:8006")])
    /\ rs_Diagnostics resp'
       = [diag_NewErrorDiagnostic "API Error"
            (Plain "Unable to read storages, got status 401: permission denied")]
    /\ Diagnostics_HasError (rs_Diagnostics resp') = true
    /\ State resp' = None.
Proof.
  apply (read_reports_api_error
           (sample_world (inr {| StatusCode := 401; Body := ("permission denied", None) |}))
           (sample_source "https://pve:8006") (sample_client "https://pve:8006")
           sample_ReadRequest fresh_ReadResponse []
           [storage_request (sample_client "https://pve:8006")]
           {| StatusCode := 401; Body := ("permission denied", None) |}).
  - reflexivity.
  - reflexivity.
  - apply (DoRequest_storage
             (sample_world (inr {| StatusCode := 401; Body := ("permission denied", None) |}))
             (sample_client "https://pve:8006") []).
    vm_compute. reflexivity.
  - discriminate.
Defined.

(** C8 (as stated, refuted): with an endpoint that ends in a line feed, the
    request cannot be built; [Read] fails with a Client Error and hands no
    request to the HTTP client. *)
Lemma read_issues_no_request_for_bad_url :
  let endpoint := "https://pve:8006" +:+ String "010" EmptyString in
  exists resp' : datasource_ReadResponse,
    StoragesDataSource_Read (sample_world (ok_response sample_body))
      (sample_source endpoint) sample_ReadRequest fresh_ReadResponse []
    = (Returns resp', [])
    /\ Diagnostics_HasError (rs_Diagnostics resp') = true.
Proof. eexists. split; vm_compute; reflexivity. Qed.

(** C8 (amended): every [Read] that reaches its request and whose URL, the
    endpoint less one trailing slash followed by /api2/json/storage, is one
    that [url.Parse] accepts, hands exactly one request to the HTTP client: a
    GET with that URL, whose Authorization header is PVEAPIToken= then the
    token identifier, =, and the token secret, whose Content-Type header is
    application/json, and whose body is empty.  When the URL is rejected, no
    request is handed over and [Read] fails with a Client Error. *)
Theorem read_issues_one_get
    (w : World) (d : StoragesDataSource) (c : ProxmoxClient)
    (req : datasource_ReadRequest) (resp : datasource_ReadResponse)
    (log : list http_Request) :
  client d = Some c ->
  Diagnostics_HasError (rs_Diagnostics (rs_decoded req resp)) = false ->
  match url_Parse w (strings_TrimSuffix (Endpoint c) "/" +:+ "/api2/json/storage") with
  | None =>
      (StoragesDataSource_Read w d req resp log).2
      = log ++ [ {| Method := "GET";
                    URL := strings_TrimSuffix (Endpoint c) "/" +:+ "/api2/json/storage";
                    Header :=
                      {[ "Authorization" :=
                           ["PVEAPIToken=" +:+ TokenID c +:+ "=" +:+ TokenSecret c];
                         "Content-Type" := ["application/json"] ]};
                    RequestBody := EmptyString |} ]
  | Some err =>
      StoragesDataSource_Read w d req resp log
      = (Returns (rs_failed req resp "Client Error"
                    (WithError "Unable to read storages, got error: " err)), log)
  end.
Proof.
  intros Hclient Hdecoded.
  destruct (url_Parse w _) as [err|] eqn:Hurl.
  - by rewrite (Read_request w d c req resp log _ Hclient Hdecoded _
                  (DoRequest_bad_url w c log err Hurl)).
  - rewrite (Read_request w d c req resp log _ Hclient Hdecoded _
               (DoRequest_storage w c log Hurl)).
    fold (storage_request c).
    repeat case_match; reflexivity.
Qed.

(** The endpoint https://pve:8006/ gives the URL
    https://pve:8006/api2/json/storage. *)
Lemma read_issues_one_get_witness :
  (StoragesDataSource_Read (sample_world (ok_response sample_body))
     (sample_source "https://pve:8006/") sample_ReadRequest fresh_ReadResponse []).2
  = [ {| Method := "GET";
         URL := "https://pve:8006/api2/json/storage";
         Header :=
           {[ "Authorization" := ["PVEAPIToken=root@pam!terraform=secret"];
              "Content-Type" := ["application/json"] ]};
         RequestBody := EmptyString |} ].
Proof.
  apply (read_issues_one_get (sample_world (ok_response sample_body))
           (sample_source "https://pve:8006/") (sample_client "https://pve:8006/")
           sample_ReadRequest fresh_ReadResponse []).
  - reflexivity.
  - reflexivity.
Defined.

(* --------------------------------------------------------------------- *)
(** ** The priority field                                                 *)
(* --------------------------------------------------------------------- *)

(** C9 (as stated, refuted): the body [{"data":[{"priority":1e19}]}] decodes
    to a record whose priority is the [float64] 1e19; truncated to an integer
    that is 10^19, which no [int64] holds, so whatever the platform, the
    projected priority is another number. *)
Lemma priority_of_large_number_not_truncated :
  let val := S754_finite false 4882812500000000 11 in
  json_Unmarshal (json_text "{'data':[{'priority':1e19}]}")
    = inr {| Data := [ {[ "priority" := any_float64 val ]} ] |}
  /\ truncate_toward_zero val = Some (10 ^ 19)
  /\ forall w : World,
       Priority (convert_storage w {[ "priority" := any_float64 val ]})
       <> types_Int64Value (10 ^ 19).
Proof.
  split; [vm_compute; reflexivity|].
  split; [vm_compute; reflexivity|].
  intros w Heq.
  assert (Hval : Priority
                   (convert_storage w
                      {[ "priority" := any_float64 (S754_finite false 4882812500000000 11) ]})
                 = types_Int64Value
                     (int64_of_float64 w (S754_finite false 4882812500000000 11)))
    by reflexivity.
  rewrite Hval in Heq. injection Heq as Heq.
  pose proof (int64_of_float64_in_int64 w (S754_finite false 4882812500000000 11)) as Hin.
  rewrite Heq in Hin. vm_compute in Hin. discriminate.
Qed.

(** C9 (amended): for every raw record whose priority key holds a number,
    the projected priority is that [float64] truncated toward zero (never
    rounded), provided the truncated value fits an [int64]; for every raw
    record whose priority key is missing or holds anything but a number, the
    projected priority is null. *)
Theorem priority_truncated_or_null (w : World) (storageData : gmap string any) :
  (forall (val : float64) (z : Z),
      storageData !! "priority" = Some (any_float64 val) ->
      truncate_toward_zero val = Some z ->
      in_int64 z = true ->
      Priority (convert_storage w storageData) = types_Int64Value z)
  /\ ((forall val : float64, storageData !! "priority" <> Some (any_float64 val)) ->
      Priority (convert_storage w storageData) = types_Int64Null).
Proof.
  split.
  - intros val z Hlookup Htrunc Hin.
    unfold convert_storage. cbn [Priority]. rewrite Hlookup.
    unfold int64_of_float64.
    by rewrite float64_truncate_toward_zero, Htrunc, Hin.
  - intros Hnone. unfold convert_storage. cbn [Priority].
    destruct (storageData !! "priority") as [[| | val | | |]|] eqn:E; try done.
    by destruct (Hnone val).
Qed.

Lemma priority_truncated_or_null_witness :
  let w := sample_world (ok_response sample_body) in
  strconv_ParseFloat "10.9" = Some (S754_finite false 6136154492292301 (-49))
  /\ Priority (convert_storage w
       {[ "priority" := any_float64 (S754_finite false 6136154492292301 (-49)) ]})
     = types_Int64Value 10
  /\ Priority (convert_storage w
       {[ "priority" := any_float64 (S754_finite true 6136154492292301 (-49)) ]})
     = types_Int64Value (-10)
  /\ Priority (convert_storage w {[ "priority" := any_string "10" ]}) = types_Int64Null
  /\ Priority (convert_storage w {[ "storage" := any_string "local" ]}) = types_Int64Null.
Proof.
  split; [vm_compute; reflexivity|].
  split.
  { apply (proj1 (priority_truncated_or_null (sample_world (ok_response sample_body))
                    {[ "priority" := any_float64 (S754_finite false 6136154492292301 (-49)) ]})
             (S754_finite false 6136154492292301 (-49)) 10);
      vm_compute; reflexivity. }
  split.
  { apply (proj1 (priority_truncated_or_null (sample_world (ok_response sample_body))
                    {[ "priority" := any_float64 (S754_finite true 6136154492292301 (-49)) ]})
             (S754_finite true 6136154492292301 (-49)) (-10));
      vm_compute; reflexivity. }
  split.
  { apply (proj2 (priority_truncated_or_null (sample_world (ok_response sample_body))
                    {[ "priority" := any_string "10" ]})).
    intros val. vm_compute. discriminate. }
  { apply (proj2 (priority_truncated_or_null (sample_world (ok_response sample_body))
                    {[ "storage" := any_string "local" ]})).
    intros val. vm_compute. discriminate. }
Defined.

(* --------------------------------------------------------------------- *)
(** ** The identifier of the result                                       *)
(* --------------------------------------------------------------------- *)

(** C10: whenever [Read] returns without an error diagnostic, whatever the
    configuration and the response, the state it stored has its ID set to the
    constant storages. *)
Theorem read_success_sets_id
    (w : World) (d : StoragesDataSource)
    (req : datasource_ReadRequest) (resp resp' : datasource_ReadResponse)
    (log log' : list http_Request) :
  StoragesDataSource_Read w d req resp log = (Returns resp', log') ->
  Diagnostics_HasError (rs_Diagnostics resp') = false ->
  exists storages : list StorageModel,
    State resp' = Some {| ID := types_StringValue "storages"; Storages := storages |}.
Proof.
  intros Hread Hok.
  destruct (Diagnostics_HasError (rs_Diagnostics (rs_decoded req resp))) eqn:Hdecoded.
  { rewrite Read_config_error in Hread by done.
    injection Hread as <- _. congruence. }
  destruct (client d) as [c|] eqn:Hclient.
  2: { rewrite Read_nil_client in Hread by done. discriminate. }
  destruct (ProxmoxClient_DoRequest w c "GET" "/storage" None log) as [r log1] eqn:Hdo.
  rewrite (Read_request w d c req resp log log1 Hclient Hdecoded r Hdo) in Hread.
  assert (Hfail : forall summary det,
             (Returns (rs_failed req resp summary det), log1) = (Returns resp', log') ->
             False).
  { intros summary det Heq. injection Heq as <- _.
    rewrite rs_failed_HasError in Hok. discriminate. }
  destruct r as [err|httpResp]; [destruct (Hfail _ _ Hread)|].
  destruct (negb (StatusCode httpResp =? http_StatusOK)); [destruct (Hfail _ _ Hread)|].
  destruct (Body httpResp).2; [destruct (Hfail _ _ Hread)|].
  destruct (json_Unmarshal (Body httpResp).1) as [err|sr];
    [destruct (Hfail _ _ Hread)|].
  injection Hread as <- _. unfold rs_succeeded. cbn [State]. eauto.
Qed.

Lemma read_success_sets_id_witness :
  let resp' :=
    {| State := Some {| ID := types_StringValue "storages";
                        Storages := [sample_storage] |};
       rs_Diagnostics := [] |} in
  StoragesDataSource_Read (sample_world (ok_response sample_body))
    (sample_source "https://pve:8006") sample_ReadRequest fresh_ReadResponse []
  = (Returns resp', [storage_request (sample_client "https://pve:8006")])
  /\ exists storages : list StorageModel,
       State resp'
       = Some {| ID := types_StringValue "storages"; Storages := storages |}.
Proof.
  split; [vm_compute; reflexivity|].
  apply (read_success_sets_id (sample_world (ok_response sample_body))
           (sample_source "https://pve:8006") sample_ReadRequest fresh_ReadResponse
           {| State := Some {| ID := types_StringValue "storages";
                               Storages := [sample_storage] |};
              rs_Diagnostics := [] |}
           [] [storage_request (sample_client "https://pve:8006")]).
  - vm_compute. reflexivity.
  - reflexivity.
Defined.

(* ===================================================================== *)
(** * Part III.  Further properties of the code                           *)
(* ===================================================================== *)

(* --------------------------------------------------------------------- *)
(** ** [ProxmoxProvider.Configure]: outcomes                              *)
(* --------------------------------------------------------------------- *)

(** A configuration whose endpoint is null. *)
Lemma configure_missing_required_witness :
  let req := sample_config Null (Known "root@pam!terraform") (Known "secret") in
  cr_failed req fresh_ConfigureResponse "Missing Configuration"
    (ProxmoxProvider_Configure req fresh_ConfigureResponse []).1
  /\ (ProxmoxProvider_Configure req fresh_ConfigureResponse []).2 = [].
Proof.
  apply (configure_missing_required
           (sample_config Null (Known "root@pam!terraform") (Known "secret"))
           fresh_ConfigureResponse []);
    reflexivity.
Defined.

(** X2: in the client of every accepted configuration, certificate
    verification is switched off exactly when skip_verify is known and true;
    when it is null, unknown or false the transport keeps its default TLS
    settings. *)
Theorem configure_skip_verify
    (req : provider_ConfigureRequest) (resp : provider_ConfigureResponse)
    (log : list http_Request) :
  Diagnostics_HasError
    (cr_Diagnostics (ProxmoxProvider_Configure req resp log).1) = false ->
  exists c : ProxmoxClient,
    DataSourceData (ProxmoxProvider_Configure req resp log).1 = Some c
    /\ TLSClientConfig (Transport (HTTPClient c))
       = match pm_SkipVerify (Config_Get req).2 with
         | Known true => Some {| InsecureSkipVerify := true |}
         | _ => None
         end.
Proof.
  intros Hok.
  destruct (Configure_no_error_inv req resp log Hok) as (H0 & H1 & H2 & H3 & H4).
  revert H0 H1 H2 H3 H4. clear Hok.
  unfold ProxmoxProvider_Configure, cr_decoded.
  destruct req as [[diags data]].
  cbn [Config_Get fst snd cr_Diagnostics DataSourceData ResourceData].
  intros -> -> -> -> ->. cbn [negb].
  eexists. split; [reflexivity|].
  by destruct (pm_SkipVerify data) as [| |[|]].
Qed.

Lemma configure_skip_verify_witness :
  let req :=
    {| Config_Get :=
         ([], {| pm_Endpoint := Known "https://pve:8006";
                 pm_TokenID := Known "root@pam!terraform";
                 pm_TokenSecret := Known "secret";
                 pm_SkipVerify := Known true |}) |} in
  exists c : ProxmoxClient,
    DataSourceData (ProxmoxProvider_Configure req fresh_ConfigureResponse []).1 = Some c
    /\ TLSClientConfig (Transport (HTTPClient c))
       = Some {| InsecureSkipVerify := true |}.
Proof.
  apply (configure_skip_verify
           {| Config_Get :=
                ([], {| pm_Endpoint := Known "https://pve:8006";
                        pm_TokenID := Known "root@pam!terraform";
                        pm_TokenSecret := Known "secret";
                        pm_SkipVerify := Known true |}) |}
           fresh_ConfigureResponse []).
  reflexivity.
Defined.

(** X3: [Configure] is all or nothing.  Either decoding the configuration
    had left an error and [Configure] returns at once; or it produces one
    client, stored in both slots, and adds no diagnostic; or it adds exactly
    one error, Missing Configuration or Invalid Token ID Format, and leaves
    both slots as they were. *)
Theorem configure_all_or_nothing
    (req : provider_ConfigureRequest) (resp : provider_ConfigureResponse)
    (log : list http_Request) :
  (Diagnostics_HasError (cr_Diagnostics (cr_decoded req resp)) = true
   /\ (ProxmoxProvider_Configure req resp log).1 = cr_decoded req resp)
  \/ (exists c : ProxmoxClient,
        (ProxmoxProvider_Configure req resp log).1
        = {| cr_Diagnostics := cr_Diagnostics (cr_decoded req resp);
             DataSourceData := Some c; ResourceData := Some c |}
        /\ Diagnostics_HasError (cr_Diagnostics (cr_decoded req resp)) = false)
  \/ (exists summary : string,
        summary ∈ Configure_summaries
        /\ cr_failed req resp summary (ProxmoxProvider_Configure req resp log).1).
Proof.
  unfold ProxmoxProvider_Configure, cr_failed, cr_decoded, cr_AddError, Configure_summaries.
  destruct req as [[diags data]].
  cbn [Config_Get fst snd cr_Diagnostics DataSourceData ResourceData].
  destruct (Diagnostics_HasError (Diagnostics_Append (cr_Diagnostics resp) diags))
    eqn:Hdecoded; [left; by split|].
  destruct (IsNull (pm_Endpoint data)).
  { right; right. exists "Missing Configuration". split; [set_solver|].
    cbn [fst]. rewrite AddError_fresh by done. eauto. }
  destruct (IsNull (pm_TokenID data)).
  { right; right. exists "Missing Configuration". split; [set_solver|].
    cbn [fst]. rewrite AddError_fresh by done. eauto. }
  destruct (IsNull (pm_TokenSecret data)).
  { right; right. exists "Missing Configuration". split; [set_solver|].
    cbn [fst]. rewrite AddError_fresh by done. eauto. }
  destruct (strings_Contains (ValueString (pm_TokenID data)) "!"); cbn [negb].
  - right; left. eexists. split; reflexivity.
  - right; right. exists "Invalid Token ID Format". split; [set_solver|].
    cbn [fst]. rewrite AddError_fresh by done. eauto.
Qed.

(** X4: a token identifier that is not yet known reads as the empty string
    and, the other values being present, is rejected with Invalid Token ID
    Format; no client is produced. *)
Theorem configure_unknown_token_rejected
    (req : provider_ConfigureRequest) (resp : provider_ConfigureResponse)
    (log : list http_Request) :
  let data := (Config_Get req).2 in
  Diagnostics_HasError (cr_Diagnostics (cr_decoded req resp)) = false ->
  IsNull (pm_Endpoint data) = false ->
  IsNull (pm_TokenSecret data) = false ->
  pm_TokenID data = Unknown ->
  cr_failed req resp "Invalid Token ID Format"
    (ProxmoxProvider_Configure req resp log).1.
Proof.
  unfold ProxmoxProvider_Configure, cr_failed, cr_decoded, cr_AddError.
  destruct req as [[diags data]].
  cbn [Config_Get fst snd cr_Diagnostics DataSourceData ResourceData].
  intros Hdecoded -> -> ->. rewrite Hdecoded.
  cbn [IsNull ValueString strings_Contains String.prefix orb negb fst].
  rewrite AddError_fresh by done. eauto.
Qed.

Lemma configure_unknown_token_rejected_witness :
  cr_failed (sample_config (Known "https://pve:8006") Unknown (Known "secret"))
    fresh_ConfigureResponse "Invalid Token ID Format"
    (ProxmoxProvider_Configure
       (sample_config (Known "https://pve:8006") Unknown (Known "secret"))
       fresh_ConfigureResponse []).1.
Proof.
  apply (configure_unknown_token_rejected
           (sample_config (Known "https://pve:8006") Unknown (Known "secret"))
           fresh_ConfigureResponse []);
    reflexivity.
Defined.

(** X5: an endpoint that is not yet known passes the checks of [Configure]:
    with a well-formed token identifier and a secret present, a client is
    produced whose endpoint is the empty string, so that the URL of its
    storage request is the bare path /api2/json/storage. *)
Theorem configure_unknown_endpoint_accepted
    (req : provider_ConfigureRequest) (resp : provider_ConfigureResponse)
    (log : list http_Request) :
  let data := (Config_Get req).2 in
  Diagnostics_HasError (cr_Diagnostics (cr_decoded req resp)) = false ->
  pm_Endpoint data = Unknown ->
  IsNull (pm_TokenID data) = false ->
  IsNull (pm_TokenSecret data) = false ->
  strings_Contains (ValueString (pm_TokenID data)) "!" = true ->
  exists c : ProxmoxClient,
    (ProxmoxProvider_Configure req resp log).1
    = {| cr_Diagnostics := cr_Diagnostics (cr_decoded req resp);
         DataSourceData := Some c; ResourceData := Some c |}
    /\ Endpoint c = EmptyString
    /\ URL (storage_request c) = "/api2/json/storage".
Proof.
  intros data Hdecoded Hunknown Hid Hsecret Htoken.
  assert (Hendpoint : IsNull (pm_Endpoint data) = false) by by rewrite Hunknown.
  destruct (Configure_success req resp log Hdecoded Hendpoint Hid Hsecret Htoken)
    as (c & Heq & He & _ & _).
  exists c. rewrite Heq. cbn [fst]. split; [done|].
  fold data in He. rewrite Hunknown in He. cbn [ValueString] in He.
  split; [done|]. unfold storage_request. cbn [URL]. by rewrite He.
Qed.

Lemma configure_unknown_endpoint_accepted_witness :
  exists c : ProxmoxClient,
    (ProxmoxProvider_Configure
       (sample_config Unknown (Known "root@pam!terraform") (Known "secret"))
       fresh_ConfigureResponse []).1
    = {| cr_Diagnostics := []; DataSourceData := Some c; ResourceData := Some c |}
    /\ Endpoint c = EmptyString
    /\ URL (storage_request c) = "/api2/json/storage".
Proof.
  apply (configure_unknown_endpoint_accepted
           (sample_config Unknown (Known "root@pam!terraform") (Known "secret"))
           fresh_ConfigureResponse []);
    reflexivity.
Defined.

(* --------------------------------------------------------------------- *)
(** ** [ProxmoxClient.DoRequest]: any method, path and body               *)
(* --------------------------------------------------------------------- *)

(** X6: whatever the method, the path and the body, [DoRequest] either
    returns an error without handing anything to the HTTP client, or hands it
    exactly one request and returns its answer; that request has the method
    asked for (GET for the empty method), the URL made of the endpoint less
    one trailing slash, /api2/json and the path, and exactly two headers:
    Authorization, PVEAPIToken= then the token identifier, = and the secret,
    and Content-Type, application/json.  No request leaves without the
    credentials, and no response is returned without a request. *)
Theorem do_request_sends_one_authenticated_request
    (w : World) (c : ProxmoxClient) (method path : string) (body : option any)
    (log : list http_Request) :
  let res := ProxmoxClient_DoRequest w c method path body log in
  (res.2 = log /\ exists err : error, res.1 = inl err)
  \/ (exists rq : http_Request,
        res.2 = log ++ [rq]
        /\ res.1 = roundTrip w (HTTPClient c) rq
        /\ Method rq = (if String.eqb method EmptyString then "GET" else method)
        /\ URL rq = strings_TrimSuffix (Endpoint c) "/" +:+ "/api2/json" +:+ path
        /\ Header rq
           = {[ "Authorization" :=
                  ["PVEAPIToken=" +:+ TokenID c +:+ "=" +:+ TokenSecret c];
                "Content-Type" := ["application/json"] ]}
        /\ (body = None -> RequestBody rq = EmptyString)).
Proof.
  unfold ProxmoxClient_DoRequest, http_NewRequest. cbv zeta.
  destruct body as [b|].
  - destruct (json_Encode w b) as [err|buf]; [left; split; [done | by exists err]|].
    destruct (negb (validMethod _)); [left; split; [done | by eexists]|].
    destruct (url_Parse w _) as [err|]; [left; split; [done | by exists err]|].
    right. eexists. split; [reflexivity|]. split; [reflexivity|].
    split; [reflexivity|]. split; [reflexivity|]. split; [|done].
    unfold Header_Set. cbn [Header]. f_equal.
  - destruct (negb (validMethod _)); [left; split; [done | by eexists]|].
    destruct (url_Parse w _) as [err|]; [left; split; [done | by exists err]|].
    right. eexists. split; [reflexivity|]. split; [reflexivity|].
    split; [reflexivity|]. split; [reflexivity|]. split; [|done].
    unfold Header_Set. cbn [Header]. f_equal.
Qed.

(** X7: one trailing slash of the endpoint makes no difference: a client
    whose endpoint is [e] and one whose endpoint is [e] followed by a slash
    behave alike in every call of [DoRequest], [e] not ending in a slash
    itself. *)
Theorem do_request_ignores_one_trailing_slash
    (w : World) (c : ProxmoxClient) (e method path : string) (body : option any)
    (log : list http_Request) :
  strings_HasSuffix e "/" = false ->
  ProxmoxClient_DoRequest w (with_Endpoint c (e +:+ "/")) method path body log
  = ProxmoxClient_DoRequest w (with_Endpoint c e) method path body log.
Proof.
  intros Hslash. unfold ProxmoxClient_DoRequest, with_Endpoint.
  cbn [Endpoint HTTPClient TokenID TokenSecret].
  by rewrite TrimSuffix_append, (TrimSuffix_without e "/" Hslash).
Qed.

Lemma do_request_ignores_one_trailing_slash_witness :
  ProxmoxClient_DoRequest (sample_world (ok_response sample_body))
    (with_Endpoint (sample_client EmptyString) ("https://pve:8006" +:+ "/"))
    "GET" "/storage" None []
  = ProxmoxClient_DoRequest (sample_world (ok_response sample_body))
      (with_Endpoint (sample_client EmptyString) "https://pve:8006")
      "GET" "/storage" None [].
Proof.
  apply (do_request_ignores_one_trailing_slash
           (sample_world (ok_response sample_body)) (sample_client EmptyString)
           "https://pve:8006" "GET" "/storage" None []).
  reflexivity.
Defined.

(* --------------------------------------------------------------------- *)
(** ** [StoragesDataSource.Read]: the failures                            *)
(* --------------------------------------------------------------------- *)

(** X8: when the HTTP client returns an error instead of a response, [Read]
    fails with the Client Error diagnostic, which carries that error, and
    leaves the state as it was. *)
Theorem read_reports_transport_error
    (w : World) (d : StoragesDataSource) (c : ProxmoxClient)
    (req : datasource_ReadRequest) (resp : datasource_ReadResponse)
    (log log' : list http_Request) (err : error) :
  client d = Some c ->
  Diagnostics_HasError (rs_Diagnostics (rs_decoded req resp)) = false ->
  ProxmoxClient_DoRequest w c "GET" "/storage" None log = (inl err, log') ->
  StoragesDataSource_Read w d req resp log
  = (Returns (rs_failed req resp "Client Error"
                (WithError "Unable to read storages, got error: " err)), log').
Proof.
  intros Hclient Hdecoded Hdo.
  by rewrite (Read_request w d c req resp log log' Hclient Hdecoded _ Hdo).
Qed.

Lemma read_reports_transport_error_witness :
  StoragesDataSource_Read (sample_world (inl (errorString "connection refused")))
    (sample_source "https://pve:8006") sample_ReadRequest fresh_ReadResponse []
  = (Returns (rs_failed sample_ReadRequest fresh_ReadResponse "Client Error"
                (WithError "Unable to read storages, got error: "
                   (errorString "connection refused"))),
     [storage_request (sample_client "https://pve:8006")]).
Proof.
  apply (read_reports_transport_error
           (sample_world (inl (errorString "connection refused")))
           (sample_source "https://pve:8006") (sample_client "https://pve:8006")
           sample_ReadRequest fresh_ReadResponse []
           [storage_request (sample_client "https://pve:8006")]
           (errorString "connection refused")).
  - reflexivity.
  - reflexivity.
  - apply (DoRequest_storage (sample_world (inl (errorString "connection refused")))
             (sample_client "https://pve:8006") []).
    vm_compute. reflexivity.
Defined.

(** X9: when the status is 200 and reading the body stops with an error,
    [Read] fails with the Read Error diagnostic and stores nothing: the bytes
    read before the error are never decoded, even if they are a complete JSON
    text. *)
Theorem read_reports_body_read_error
    (w : World) (d : StoragesDataSource) (c : ProxmoxClient)
    (req : datasource_ReadRequest) (resp : datasource_ReadResponse)
    (log log' : list http_Request) (partial : string) (err : error) :
  client d = Some c ->
  Diagnostics_HasError (rs_Diagnostics (rs_decoded req resp)) = false ->
  ProxmoxClient_DoRequest w c "GET" "/storage" None log
  = (inr {| StatusCode := 200; Body := (partial, Some err) |}, log') ->
  StoragesDataSource_Read w d req resp log
  = (Returns (rs_failed req resp "Read Error"
                (WithError "Unable to read response body: " err)), log').
Proof.
  intros Hclient Hdecoded Hdo.
  by read_answered_ok Hclient Hdecoded Hdo.
Qed.

Lemma read_reports_body_read_error_witness :
  let answer :=
    inr {| StatusCode := 200;
           Body := (sample_body, Some (errorString "unexpected EOF")) |} in
  StoragesDataSource_Read (sample_world answer)
    (sample_source "https://pve:8006") sample_ReadRequest fresh_ReadResponse []
  = (Returns (rs_failed sample_ReadRequest fresh_ReadResponse "Read Error"
                (WithError "Unable to read response body: "
                   (errorString "unexpected EOF"))),
     [storage_request (sample_client "https://pve:8006")]).
Proof.
  apply (read_reports_body_read_error
           (sample_world
              (inr {| StatusCode := 200;
                      Body := (sample_body, Some (errorString "unexpected EOF")) |}))
           (sample_source "https://pve:8006") (sample_client "https://pve:8006")
           sample_ReadRequest fresh_ReadResponse []
           [storage_request (sample_client "https://pve:8006")]
           sample_body (errorString "unexpected EOF")).
  - reflexivity.
  - reflexivity.
  - apply (DoRequest_storage
             (sample_world
                (inr {| StatusCode := 200;
                        Body := (sample_body, Some (errorString "unexpected EOF")) |}))
             (sample_client "https://pve:8006") []).
    vm_compute. reflexivity.
Defined.

(** X10: when the status is 200 and the body is no JSON text, [Read] fails
    with the Parse Error diagnostic, which carries the syntax error, and
    stores nothing. *)
Theorem read_reports_syntax_error
    (w : World) (d : StoragesDataSource) (c : ProxmoxClient)
    (req : datasource_ReadRequest) (resp : datasource_ReadResponse)
    (log log' : list http_Request) (body : string) :
  client d = Some c ->
  Diagnostics_HasError (rs_Diagnostics (rs_decoded req resp)) = false ->
  ProxmoxClient_DoRequest w c "GET" "/storage" None log
  = (inr {| StatusCode := 200; Body := (body, None) |}, log') ->
  json_parse body = None ->
  StoragesDataSource_Read w d req resp log
  = (Returns (rs_failed req resp "Parse Error"
                (WithError "Unable to parse response: " json_SyntaxError)), log').
Proof.
  intros Hclient Hdecoded Hdo Hparse.
  read_answered_ok Hclient Hdecoded Hdo.
  unfold json_Unmarshal. by rewrite Hparse.
Qed.

Lemma read_reports_syntax_error_witness :
  StoragesDataSource_Read
    (sample_world (ok_response (json_text "{'data':[{'storage':'local'}")))
    (sample_source "https://pve:8006") sample_ReadRequest fresh_ReadResponse []
  = (Returns (rs_failed sample_ReadRequest fresh_ReadResponse "Parse Error"
                (WithError "Unable to parse response: " json_SyntaxError)),
     [storage_request (sample_client "https://pve:8006")]).
Proof.
  apply (read_reports_syntax_error
           (sample_world (ok_response (json_text "{'data':[{'storage':'local'}")))
           (sample_source "https://pve:8006") (sample_client "https://pve:8006")
           sample_ReadRequest fresh_ReadResponse []
           [storage_request (sample_client "https://pve:8006")]
           (json_text "{'data':[{'storage':'local'}")).
  - reflexivity.
  - reflexivity.
  - apply (DoRequest_storage
             (sample_world (ok_response (json_text "{'data':[{'storage':'local'}")))
             (sample_client "https://pve:8006") []).
    vm_compute. reflexivity.
  - vm_compute. reflexivity.
Defined.

(** X12: [Read] is all or nothing, and sends at most one request.  Either
    decoding the configuration had left an error and [Read] returns at once;
    or the data source has no client and [Read] panics before any request; or
    [Read] stores a complete result, adds no diagnostic and has sent exactly
    one request; or it adds exactly one error, Client Error, API Error, Read
    Error or Parse Error, leaves the state as it was, and has sent at most
    one request. *)
Theorem read_all_or_nothing
    (w : World) (d : StoragesDataSource)
    (req : datasource_ReadRequest) (resp : datasource_ReadResponse)
    (log : list http_Request) :
  let res := StoragesDataSource_Read w d req resp log in
  (Diagnostics_HasError (rs_Diagnostics (rs_decoded req resp)) = true
   /\ res = (Returns (rs_decoded req resp), log))
  \/ (client d = None /\ res = (Panics, log))
  \/ (exists (c : ProxmoxClient) (storages : list StorageModel),
        client d = Some c
        /\ res = (Returns (rs_succeeded req resp storages),
                  log ++ [storage_request c]))
  \/ (exists (c : ProxmoxClient) (summary : string) (det : detail)
             (log' : list http_Request),
        client d = Some c
        /\ summary ∈ Read_summaries
        /\ res = (Returns (rs_failed req resp summary det), log')
        /\ (log' = log \/ log' = log ++ [storage_request c])).
Proof.
  cbv zeta.
  destruct (Diagnostics_HasError (rs_Diagnostics (rs_decoded req resp))) eqn:Hdecoded.
  { left. split; [done|]. by apply Read_config_error. }
  right.
  destruct (client d) as [c|] eqn:Hclient.
  2: { left. split; [done|]. by apply Read_nil_client. }
  right.
  destruct (url_Parse w (strings_TrimSuffix (Endpoint c) "/" +:+ "/api2/json/storage"))
    as [err|] eqn:Hurl.
  { right. exists c. eexists _, _, log. split; [done|].
    rewrite (Read_request w d c req resp log log Hclient Hdecoded _
               (DoRequest_bad_url w c log err Hurl)).
    split; [|split; [reflexivity | by left]]. unfold Read_summaries. set_solver. }
  pose proof (DoRequest_storage w c log Hurl) as Hdo.
  rewrite (Read_request w d c req resp log _ Hclient Hdecoded _ Hdo).
  destruct (roundTrip w (HTTPClient c) (storage_request c)) as [err|httpResp] eqn:Hrt.
  { right. exists c. eexists _, _, _. split; [done|].
    split; [|split; [reflexivity | by right]]. unfold Read_summaries. set_solver. }
  destruct (negb (StatusCode httpResp =? http_StatusOK)).
  { right. exists c. eexists _, _, _. split; [done|].
    split; [|split; [reflexivity | by right]]. unfold Read_summaries. set_solver. }
  destruct (Body httpResp).2.
  { right. exists c. eexists _, _, _. split; [done|].
    split; [|split; [reflexivity | by right]]. unfold Read_summaries. set_solver. }
  destruct (json_Unmarshal (Body httpResp).1) as [err|sr].
  { right. exists c. eexists _, _, _. split; [done|].
    split; [|split; [reflexivity | by right]]. unfold Read_summaries. set_solver. }
  left. exists c. eexists. split; [done | reflexivity].
Qed.

(* --------------------------------------------------------------------- *)
(** ** From the provider configuration to the request                     *)
(* --------------------------------------------------------------------- *)

(** X13: the credentials travel unchanged from the configuration to the
    wire.  When the provider's [Configure] accepts a configuration and the
    client it leaves in DataSourceData is passed to [Configure] of a new data
    source, the request [Read] sends is a GET to the configured endpoint,
    less one trailing slash, followed by /api2/json/storage, with the
    Authorization header PVEAPIToken= then the configured token identifier, =
    and the configured secret. *)
Theorem configured_credentials_reach_the_request
    (w : World) (preq : provider_ConfigureRequest)
    (presp : provider_ConfigureResponse) (plog : list http_Request)
    (dresp : datasource_ConfigureResponse)
    (req : datasource_ReadRequest) (resp : datasource_ReadResponse)
    (log : list http_Request) :
  let data := (Config_Get preq).2 in
  let presp' := (ProxmoxProvider_Configure preq presp plog).1 in
  let d :=
    (StoragesDataSource_Configure NewStoragesDataSource
       {| ProviderData := ProviderData_of (DataSourceData presp') |} dresp).1 in
  let url :=
    strings_TrimSuffix (ValueString (pm_Endpoint data)) "/" +:+ "/api2/json/storage" in
  Diagnostics_HasError (cr_Diagnostics presp') = false ->
  Diagnostics_HasError (rs_Diagnostics (rs_decoded req resp)) = false ->
  url_Parse w url = None ->
  (StoragesDataSource_Read w d req resp log).2
  = log ++ [ {| Method := "GET";
                URL := url;
                Header :=
                  {[ "Authorization" :=
                       ["PVEAPIToken=" +:+ ValueString (pm_TokenID data) +:+ "="
                        +:+ ValueString (pm_TokenSecret data)];
                     "Content-Type" := ["application/json"] ]};
                RequestBody := EmptyString |} ].
Proof.
  intros data presp' d url Hok Hdecoded Hurl. subst presp' d url.
  destruct (Configure_no_error_inv preq presp plog Hok) as (H0 & H1 & H2 & H3 & H4).
  destruct (Configure_success preq presp plog H0 H1 H2 H3 H4)
    as (c & Heq & He & Hi & Hs).
  rewrite Heq in *. cbn [fst DataSourceData ProviderData_of] in *.
  cbn [StoragesDataSource_Configure ProviderData fst].
  fold data in He, Hi, Hs. rewrite <- He in Hurl. rewrite <- He, <- Hi, <- Hs.
  rewrite (Read_request w {| client := Some c |} c req resp log _ eq_refl Hdecoded _
             (DoRequest_storage w c log Hurl)).
  fold (storage_request c).
  repeat case_match; reflexivity.
Qed.

Lemma configured_credentials_reach_the_request_witness :
  let w := sample_world (ok_response sample_body) in
  let preq :=
    sample_config (Known "https://pve:8006/") (Known "root@pam!terraform")
      (Known "secret") in
  let presp' := (ProxmoxProvider_Configure preq fresh_ConfigureResponse []).1 in
  let d :=
    (StoragesDataSource_Configure NewStoragesDataSource
       {| ProviderData := ProviderData_of (DataSourceData presp') |}
       {| dcr_Diagnostics := [] |}).1 in
  (StoragesDataSource_Read w d sample_ReadRequest fresh_ReadResponse []).2
  = [ {| Method := "GET";
         URL := "https://pve:8006/api2/json/storage";
         Header :=
           {[ "Authorization" := ["PVEAPIToken=root@pam!terraform=secret"];
              "Content-Type" := ["application/json"] ]};
         RequestBody := EmptyString |} ].
Proof.
  apply (configured_credentials_reach_the_request
           (sample_world (ok_response sample_body))
           (sample_config (Known "https://pve:8006/") (Known "root@pam!terraform")
              (Known "secret"))
           fresh_ConfigureResponse [] {| dcr_Diagnostics := [] |}
           sample_ReadRequest fresh_ReadResponse []).
  - reflexivity.
  - reflexivity.
  - vm_compute. reflexivity.
Defined.

(* --------------------------------------------------------------------- *)
(** ** Decoding the body: errors and lengths                              *)
(* --------------------------------------------------------------------- *)

(** Once an error is saved, decoding into an [interface{}] keeps it. *)
Lemma valueInterface_keeps_error (e : error) (v : json_value) :
  (valueInterface v (Some e)).2 = Some e.
Proof.
  induction v as [| b | lit | str | elems IH | members IH] using json_value_nested_ind;
    cbn [valueInterface]; try done.
  - by destruct (strconv_ParseFloat lit).
  - match goal with |- context [?f elems (Some e)] => set (go := f) end.
    assert (Hgo : (go elems (Some e)).2 = Some e).
    { induction IH as [|x l Hx _ IHl]; [done|].
      cbn [go]. fold go.
      destruct (valueInterface x (Some e)) as [a saved1].
      cbn [snd] in Hx. subst saved1.
      by destruct (go l (Some e)) as [r saved2]. }
    by destruct (go elems (Some e)).
  - match goal with |- context [?f members ∅ (Some e)] => set (go := f) end.
    assert (Hgo : forall m, (go members m (Some e)).2 = Some e).
    { induction IH as [|kx ms Hkx _ IHms]; intros m; [done|].
      cbn [go]. fold go.
      destruct (valueInterface kx.2 (Some e)) as [a saved1].
      cbn [snd] in Hkx. subst saved1. apply IHms. }
    specialize (Hgo ∅). by destruct (go members ∅ (Some e)).
Qed.

Lemma object_into_map_keeps_error (e : error) (ms : list (string * json_value))
    (m : gmap string any) :
  (object_into_map ms m (Some e)).2 = Some e.
Proof.
  revert m. induction ms as [|kx ms IH]; intros m; [done|].
  cbn [object_into_map].
  pose proof (valueInterface_keeps_error e kx.2) as Hv.
  destruct (valueInterface kx.2 (Some e)) as [a saved1].
  cbn [snd] in Hv. subst saved1. apply IH.
Qed.

Lemma value_into_map_keeps_error (e : error) (cur : gmap string any) (v : json_value) :
  (value_into_map cur v (Some e)).2 = Some e.
Proof. destruct v; try done. apply object_into_map_keeps_error. Qed.

Lemma array_into_slice_keeps_error (e : error) (elems : list json_value) (i : nat)
    (cur : list (gmap string any)) :
  (array_into_slice elems i cur (Some e)).2 = Some e.
Proof.
  revert i. induction elems as [|x elems IH]; intros i; [done|].
  cbn [array_into_slice].
  pose proof (value_into_map_keeps_error e (default ∅ (cur !! i)) x) as Hx.
  destruct (value_into_map (default ∅ (cur !! i)) x (Some e)) as [m saved1].
  cbn [snd] in Hx. subst saved1.
  specialize (IH (S i)). by destruct (array_into_slice elems (S i) cur (Some e)).
Qed.

Lemma value_into_slice_keeps_error (e : error) (cur : list (gmap string any))
    (v : json_value) :
  (value_into_slice cur v (Some e)).2 = Some e.
Proof. destruct v; try done. apply array_into_slice_keeps_error. Qed.

Lemma object_into_struct_keeps_error (e : error) (ms : list (string * json_value))
    (sr : storageResponse_t) :
  (object_into_struct ms sr (Some e)).2 = Some e.
Proof.
  revert sr. induction ms as [|kx ms IH]; intros sr; [done|].
  cbn [object_into_struct]. destruct (key_matches_field kx.1 "data"); [|apply IH].
  pose proof (value_into_slice_keeps_error e (Data sr) kx.2) as Hv.
  destruct (value_into_slice (Data sr) kx.2 (Some e)) as [dat saved1].
  cbn [snd] in Hv. subst saved1. apply IH.
Qed.

(** An element that is neither an object nor null leaves an error. *)
Lemma array_into_slice_bad_element (elems : list json_value) (i : nat)
    (cur : list (gmap string any)) (saved : option error) :
  forallb is_object_or_null elems = false ->
  is_Some (array_into_slice elems i cur saved).2.
Proof.
  revert i saved. induction elems as [|x elems IH]; intros i saved; [discriminate|].
  cbn [forallb array_into_slice]. intros Hbad.
  destruct (value_into_map (default ∅ (cur !! i)) x saved) as [m saved1] eqn:Hx.
  destruct (is_object_or_null x) eqn:Hobj.
  - specialize (IH (S i) saved1 Hbad).
    by destruct (array_into_slice elems (S i) cur saved1).
  - assert (Hsaved : is_Some saved1).
    { destruct x; try discriminate Hobj; cbn [value_into_map] in Hx;
        injection Hx as _ <-; destruct saved; by eexists. }
    destruct Hsaved as [e ->].
    pose proof (array_into_slice_keeps_error e elems (S i) cur) as Hk.
    destruct (array_into_slice elems (S i) cur (Some e)) as [r s2].
    cbn [snd] in *. subst s2. by eexists.
Qed.

(** A data member that is neither null nor an array of objects and nulls
    leaves an error. *)
Lemma value_into_slice_bad (cur : list (gmap string any)) (v : json_value)
    (saved : option error) :
  bad_data_value v = true -> is_Some (value_into_slice cur v saved).2.
Proof.
  destruct v as [| b | lit | str | elems | members]; cbn [bad_data_value value_into_slice];
    try discriminate; try (intros _; destruct saved; by eexists).
  intros Hbad%negb_true_iff. by apply array_into_slice_bad_element.
Qed.

Lemma object_into_struct_bad (ms : list (string * json_value)) (k : string)
    (v : json_value) (sr : storageResponse_t) (saved : option error) :
  (k, v) ∈ ms ->
  key_matches_field k "data" = true ->
  bad_data_value v = true ->
  is_Some (object_into_struct ms sr saved).2.
Proof.
  intros Hin Hk Hbad. revert sr saved.
  induction ms as [|kx ms IH]; intros sr saved; [by apply elem_of_nil in Hin|].
  cbn [object_into_struct].
  apply elem_of_cons in Hin as [<-|Hin].
  - cbn [fst snd]. rewrite Hk.
    pose proof (value_into_slice_bad (Data sr) v saved Hbad) as [e He].
    destruct (value_into_slice (Data sr) v saved) as [dat saved1].
    cbn [snd] in He. subst saved1.
    rewrite object_into_struct_keeps_error. by eexists.
  - destruct (key_matches_field kx.1 "data"); [|by apply IH].
    destruct (value_into_slice (Data sr) kx.2 saved) as [dat saved1]. by apply IH.
Qed.

(** X11: no partial result.  When the body is an object with a data member,
    in any letter case, whose value is neither null nor an array of objects
    and nulls, for instance an array with one element that is a string or a
    number, [Read] fails with the Parse Error diagnostic and stores nothing,
    however many well-formed records the array also holds. *)
Theorem read_rejects_malformed_data
    (w : World) (d : StoragesDataSource) (c : ProxmoxClient)
    (req : datasource_ReadRequest) (resp : datasource_ReadResponse)
    (log log' : list http_Request) (body : string)
    (ms : list (string * json_value)) (k : string) (v : json_value) :
  client d = Some c ->
  Diagnostics_HasError (rs_Diagnostics (rs_decoded req resp)) = false ->
  ProxmoxClient_DoRequest w c "GET" "/storage" None log
  = (inr {| StatusCode := 200; Body := (body, None) |}, log') ->
  json_parse body = Some (JObject ms) ->
  (k, v) ∈ ms ->
  key_matches_field k "data" = true ->
  bad_data_value v = true ->
  exists err : error,
    StoragesDataSource_Read w d req resp log
    = (Returns (rs_failed req resp "Parse Error"
                  (WithError "Unable to parse response: " err)), log').
Proof.
  intros Hclient Hdecoded Hdo Hparse Hin Hk Hbad.
  read_answered_ok Hclient Hdecoded Hdo.
  unfold json_Unmarshal. rewrite Hparse. cbn [value_into_struct].
  pose proof (object_into_struct_bad ms k v {| Data := [] |} None Hin Hk Hbad) as [e He].
  destruct (object_into_struct ms {| Data := [] |} None) as [sr saved].
  cbn [snd] in He. subst saved. by exists e.
Qed.

Lemma read_rejects_malformed_data_witness :
  let body := json_text "{'data':[{'storage':'local'},'nfs']}" in
  exists err : error,
    StoragesDataSource_Read (sample_world (ok_response body))
      (sample_source "https://pve:8006") sample_ReadRequest fresh_ReadResponse []
    = (Returns (rs_failed sample_ReadRequest fresh_ReadResponse "Parse Error"
                  (WithError "Unable to parse response: " err)),
       [storage_request (sample_client "https://pve:8006")]).
Proof.
  apply (read_rejects_malformed_data
           (sample_world (ok_response (json_text "{'data':[{'storage':'local'},'nfs']}")))
           (sample_source "https://pve:8006") (sample_client "https://pve:8006")
           sample_ReadRequest fresh_ReadResponse []
           [storage_request (sample_client "https://pve:8006")]
           (json_text "{'data':[{'storage':'local'},'nfs']}")
           [("data", JArray [JObject [("storage", JString "local")]; JString "nfs"])]
           "data" (JArray [JObject [("storage", JString "local")]; JString "nfs"])).
  - reflexivity.
  - reflexivity.
  - apply (DoRequest_storage
             (sample_world
                (ok_response (json_text "{'data':[{'storage':'local'},'nfs']}")))
             (sample_client "https://pve:8006") []).
    vm_compute. reflexivity.
  - vm_compute. reflexivity.
  - apply list_elem_of_singleton. reflexivity.
  - reflexivity.
  - reflexivity.
Defined.

(** Without a number out of range, decoding into an [interface{}] saves no
    error. *)
Lemma valueInterface_ok (v : json_value) :
  numbers_in_range v = true -> (valueInterface v None).2 = None.
Proof.
  induction v as [| b | lit | str | elems IH | members IH] using json_value_nested_ind;
    cbn [valueInterface numbers_in_range]; try done.
  - intros Hlit%bool_decide_eq_true. by destruct Hlit as [f ->].
  - intros Hall.
    match goal with |- context [?f elems None] => set (go := f) end.
    assert (Hgo : (go elems None).2 = None).
    { induction IH as [|x l Hx _ IHl]; [done|].
      cbn [forallb] in Hall. apply andb_prop in Hall as [Hx' Hl].
      cbn [go]. fold go.
      specialize (Hx Hx'). destruct (valueInterface x None) as [a saved1].
      cbn [snd] in Hx. subst saved1.
      specialize (IHl Hl). by destruct (go l None) as [r saved2]. }
    by destruct (go elems None).
  - intros Hall.
    match goal with |- context [?f members ∅ None] => set (go := f) end.
    assert (Hgo : forall m, (go members m None).2 = None).
    { induction IH as [|kx ms Hkx _ IHms]; intros m; [done|].
      cbn [forallb] in Hall. apply andb_prop in Hall as [Hkx' Hms].
      cbn [go]. fold go.
      specialize (Hkx Hkx'). destruct (valueInterface kx.2 None) as [a saved1].
      cbn [snd] in Hkx. subst saved1. by apply IHms. }
    specialize (Hgo ∅). by destruct (go members ∅ None).
Qed.

Lemma object_into_map_ok (ms : list (string * json_value)) (m : gmap string any) :
  forallb (fun kx => numbers_in_range kx.2) ms = true ->
  (object_into_map ms m None).2 = None.
Proof.
  revert m. induction ms as [|kx ms IH]; intros m; [done|].
  cbn [forallb object_into_map]. intros [Hkx Hms]%andb_prop.
  pose proof (valueInterface_ok kx.2 Hkx) as Hv.
  destruct (valueInterface kx.2 None) as [a saved1].
  cbn [snd] in Hv. subst saved1. by apply IH.
Qed.

Lemma value_into_map_ok (cur : gmap string any) (x : json_value) :
  is_object_or_null x = true ->
  numbers_in_range x = true ->
  (value_into_map cur x None).2 = None.
Proof.
  destruct x; try discriminate; try done.
  intros _ Hnum. by apply object_into_map_ok.
Qed.

(** An array of objects and nulls without a number out of range decodes,
    into an empty slice, element by element and without an error. *)
Lemma array_into_slice_ok (elems : list json_value) (i : nat) :
  forallb is_object_or_null elems = true ->
  forallb numbers_in_range elems = true ->
  array_into_slice elems i [] None
  = (map (fun x => (value_into_map ∅ x None).1) elems, None).
Proof.
  revert i. induction elems as [|x elems IH]; intros i; [done|].
  cbn [forallb array_into_slice map]. intros [Hx Hxs]%andb_prop [Hn Hns]%andb_prop.
  rewrite lookup_nil. cbn [default].
  pose proof (value_into_map_ok ∅ x Hx Hn) as Hm.
  destruct (value_into_map ∅ x None) as [m saved1].
  cbn [fst snd] in *. subst saved1. by rewrite (IH (S i) Hxs Hns).
Qed.

(** X14: the criterion of success.  When the body is an object with one
    data member, an array of objects and nulls in which no number is out of
    the [float64] range, [Read] succeeds and stores exactly one record per
    element of the array, in order: the conversion of the element decoded
    into a map.  A null element gives a record with every field null. *)
Theorem read_succeeds_on_wellformed_data
    (w : World) (d : StoragesDataSource) (c : ProxmoxClient)
    (req : datasource_ReadRequest) (resp : datasource_ReadResponse)
    (log log' : list http_Request) (body k : string)
    (ms1 ms2 : list (string * json_value)) (elems : list json_value) :
  client d = Some c ->
  Diagnostics_HasError (rs_Diagnostics (rs_decoded req resp)) = false ->
  ProxmoxClient_DoRequest w c "GET" "/storage" None log
  = (inr {| StatusCode := 200; Body := (body, None) |}, log') ->
  json_parse body = Some (JObject (ms1 ++ (k, JArray elems) :: ms2)) ->
  lacks_data_field (JObject ms1) = true ->
  lacks_data_field (JObject ms2) = true ->
  key_matches_field k "data" = true ->
  forallb is_object_or_null elems = true ->
  forallb numbers_in_range elems = true ->
  exists storages : list StorageModel,
    StoragesDataSource_Read w d req resp log
    = (Returns (rs_succeeded req resp storages), log')
    /\ storages
       = map (fun x => convert_storage w (value_into_map ∅ x None).1) elems
    /\ length storages = length elems
    /\ (forall i : nat, elems !! i = Some JNull -> storages !! i = Some StorageModel_zero).
Proof.
  intros Hclient Hdecoded Hdo Hparse Hms1 Hms2 Hk Hobj Hnum.
  exists (map (fun x => convert_storage w (value_into_map ∅ x None).1) elems).
  split; [|split; [done|split; [apply length_map|]]].
  - read_answered_ok Hclient Hdecoded Hdo.
    unfold json_Unmarshal. rewrite Hparse. cbn [value_into_struct].
    cbn [lacks_data_field] in Hms1, Hms2.
    assert (Hstruct :
      object_into_struct (ms1 ++ (k, JArray elems) :: ms2) {| Data := [] |} None
      = ({| Data := map (fun x => (value_into_map ∅ x None).1) elems |}, None)).
    { clear Hparse. induction ms1 as [|kx ms1 IH].
      - cbn [app object_into_struct fst snd]. rewrite Hk.
        cbn [Data value_into_slice]. rewrite (array_into_slice_ok elems 0 Hobj Hnum).
        by apply object_into_struct_skips.
      - cbn [forallb] in Hms1. apply andb_prop in Hms1 as [Hkx Hms1].
        apply negb_true_iff in Hkx.
        cbn [app object_into_struct]. rewrite Hkx. by apply IH. }
    rewrite Hstruct. cbn [Data]. by rewrite map_map.
  - intros i Hi.
    change (map ?f elems) with (f <$> elems).
    by rewrite list_lookup_fmap, Hi.
Qed.

Lemma read_succeeds_on_wellformed_data_witness :
  let body := json_text "{'total':2,'data':[{'storage':'local'},null]}" in
  let w := sample_world (ok_response body) in
  let elems := [JObject [("storage", JString "local")]; JNull] in
  exists storages : list StorageModel,
    StoragesDataSource_Read w (sample_source "https://pve:8006")
      sample_ReadRequest fresh_ReadResponse []
    = (Returns (rs_succeeded sample_ReadRequest fresh_ReadResponse storages),
       [storage_request (sample_client "https://pve:8006")])
    /\ storages
       = map (fun x => convert_storage w (value_into_map ∅ x None).1) elems
    /\ length storages = 2%nat
    /\ (forall i : nat, elems !! i = Some JNull -> storages !! i = Some StorageModel_zero).
Proof.
  apply (read_succeeds_on_wellformed_data
           (sample_world
              (ok_response (json_text "{'total':2,'data':[{'storage':'local'},null]}")))
           (sample_source "https://pve:8006") (sample_client "https://pve:8006")
           sample_ReadRequest fresh_ReadResponse []
           [storage_request (sample_client "https://pve:8006")]
           (json_text "{'total':2,'data':[{'storage':'local'},null]}") "data"
           [("total", JNumber "2")] []
           [JObject [("storage", JString "local")]; JNull]).
  - reflexivity.
  - reflexivity.
  - apply (DoRequest_storage
             (sample_world
                (ok_response
                   (json_text "{'total':2,'data':[{'storage':'local'},null]}")))
             (sample_client "https://pve:8006") []).
    vm_compute. reflexivity.
  - vm_compute. reflexivity.
  - reflexivity.
  - reflexivity.
  - reflexivity.
  - reflexivity.
  - vm_compute. reflexivity.
Defined.

(* --------------------------------------------------------------------- *)
(** ** The conversion of one record                                       *)
(* --------------------------------------------------------------------- *)

(** X15: the conversion looks at seven keys only.  Two raw records that
    agree on storage, type, content, path, priority, digest and prune-backups
    convert to the same [StorageModel]: a key the code does not know, added,
    changed or removed, changes nothing. *)
Theorem convert_storage_known_keys_only
    (w : World) (m1 m2 : gmap string any) :
  (forall k : string, k ∈ known_keys -> m1 !! k = m2 !! k) ->
  convert_storage w m1 = convert_storage w m2.
Proof.
  intros Hagree. unfold convert_storage.
  rewrite !(Hagree "storage"), !(Hagree "type"), !(Hagree "content"),
    !(Hagree "path"), !(Hagree "priority"), !(Hagree "digest"),
    !(Hagree "prune-backups");
    [reflexivity | unfold known_keys; set_solver ..].
Qed.

Lemma convert_storage_known_keys_only_witness :
  let w := sample_world (ok_response sample_body) in
  convert_storage w sample_record
  = convert_storage w (<["shared" := any_float64 (S754_zero false)]> sample_record).
Proof.
  apply (convert_storage_known_keys_only (sample_world (ok_response sample_body))
           sample_record
           (<["shared" := any_float64 (S754_zero false)]> sample_record)).
  intros k Hk. unfold known_keys in Hk.
  repeat (apply elem_of_cons in Hk as [->|Hk]; [vm_compute; reflexivity|]).
  by apply elem_of_nil in Hk.
Defined.

(** X16: each of the six string fields is the known string found under its
    key, byte for byte, the empty string included, exactly when the raw record
    holds a string there; it is null when the key is missing or holds a value
    of another type, and it is never unknown. *)
Theorem convert_storage_string_fields
    (w : World) (m : gmap string any) (key : string)
    (field : StorageModel -> types_String) :
  (key, field) ∈ string_fields ->
  (forall s : string,
      field (convert_storage w m) = types_StringValue s
      <-> m !! key = Some (any_string s))
  /\ (field (convert_storage w m) = types_StringNull
      <-> forall s : string, m !! key <> Some (any_string s))
  /\ field (convert_storage w m) <> Unknown.
Proof.
  intros Hin. unfold string_fields in Hin.
  repeat (apply elem_of_cons in Hin as [Heq|Hin];
          [injection Heq as -> ->; unfold convert_storage;
           cbn [Storage Type_ Content Path Digest PruneBackups];
           unfold types_StringValue, types_StringNull;
           match goal with
           | |- context [m !! ?k] => destruct (m !! k) as [[| | | s0 | |]|]
           end;
           (split; [intros s; split; congruence|]);
           (split; [split; [congruence | intros H; try done; by destruct (H s0)]
                   | congruence])
          |]).
  by apply elem_of_nil in Hin.
Qed.

Lemma convert_storage_string_fields_witness :
  let w := sample_world (ok_response sample_body) in
  let m : gmap string any := {[ "prune-backups" := any_string EmptyString ]} in
  (forall s : string,
      PruneBackups (convert_storage w m) = types_StringValue s
      <-> m !! "prune-backups" = Some (any_string s))
  /\ (PruneBackups (convert_storage w m) = types_StringNull
      <-> forall s : string, m !! "prune-backups" <> Some (any_string s))
  /\ PruneBackups (convert_storage w m) <> Unknown.
Proof.
  apply (convert_storage_string_fields (sample_world (ok_response sample_body))
           {[ "prune-backups" := any_string EmptyString ]}
           "prune-backups" PruneBackups).
  unfold string_fields. set_solver.
Defined.

(* --------------------------------------------------------------------- *)
(** ** Integral priorities survive the passage through [float64]          *)
(* --------------------------------------------------------------------- *)

Lemma digits2_pos_size (n : positive) : digits2_pos n = Pos.size n.
Proof. induction n as [n IH|n IH|]; simpl; by rewrite ?IH. Qed.

Lemma digits2_pos_le_53 (n : positive) : Z.pos n < 2 ^ 53 -> Z.pos (digits2_pos n) <= 53.
Proof.
  intros Hn. rewrite digits2_pos_size.
  pose proof (Pos.size_le n) as Hle.
  assert (H2 : Z.pos (2 ^ Pos.size n) <= Z.pos (n~0)) by (apply Pos2Z.pos_le_pos; exact Hle).
  rewrite Pos2Z.inj_pow in H2. rewrite Pos2Z.inj_xO in H2.
  destruct (Z.le_gt_cases (Z.pos (Pos.size n)) 53) as [|Hgt]; [done|].
  assert (2 ^ 54 <= 2 ^ Z.pos (Pos.size n)) by (apply Z.pow_le_mono_r; lia).
  lia.
Qed.

Lemma pos_iter_xO_Z (n q : positive) : Z.pos (Pos.iter xO n q) = Z.shiftl (Z.pos n) (Z.pos q).
Proof. unfold Z.shiftl. by apply (Pos.iter_swap_gen _ _ Z.pos xO (Z.mul 2)). Qed.

Lemma pos_iter_succ (a q : positive) : Pos.iter Pos.succ a q = (a + q)%positive.
Proof.
  induction q as [|q IH] using Pos.peano_ind.
  - simpl. lia.
  - rewrite Pos.iter_succ, IH. lia.
Qed.

Lemma digits2_pos_iter_xO (n q : positive) :
  digits2_pos (Pos.iter xO n q) = (digits2_pos n + q)%positive.
Proof.
  rewrite (Pos.iter_swap_gen _ _ digits2_pos xO Pos.succ) by done.
  apply pos_iter_succ.
Qed.

Lemma binary_round_aux_canonical (sx : bool) (m : positive) (e : Z) :
  Z.pos (digits2_pos m) = 53 -> -1074 <= e <= 971 - 0 ->
  binary_round_aux 53 1024 sx (Z.pos m) e loc_Exact = S754_finite sx m e.
Proof.
  intros Hd He. unfold binary_round_aux, shr_fexp, fexp, emin. cbn [Zdigits2 shr_record_of_loc].
  rewrite Hd.
  replace (Z.max (53 + e - 53) (3 - 1024 - 53) - e) with 0 by lia.
  cbn [shr shr_m loc_of_shr_record round_nearest_even Zdigits2].
  rewrite Hd.
  replace (Z.max (53 + e - 53) (3 - 1024 - 53) - e) with 0 by lia.
  cbn [shr shr_m].
  destruct (e <=? 1024 - 53) eqn:E; [done|]. apply Z.leb_gt in E. lia.
Qed.

Lemma binary_round_small (sx : bool) (n : positive) :
  Z.pos n < 2 ^ 53 ->
  exists (m : positive) (e : Z),
    binary_round 53 1024 sx n 0 = S754_finite sx m e
    /\ Z.shiftl (Z.pos m) e = Z.pos n.
Proof.
  intros Hn. pose proof (digits2_pos_le_53 n Hn) as Hd.
  unfold binary_round, shl_align, fexp, emin.
  replace (Z.max (Z.pos (digits2_pos n) + 0 - 53) (3 - 1024 - 53))
    with (Z.pos (digits2_pos n) - 53) by lia.
  destruct (Z.pos (digits2_pos n) - 53 - 0) as [|q|q] eqn:E.
  - exists n, 0. split; [|done].
    apply binary_round_aux_canonical; lia.
  - lia.
  - exists (Pos.iter xO n q), (Z.pos (digits2_pos n) - 53). split.
    + apply binary_round_aux_canonical; [|lia].
      rewrite digits2_pos_iter_xO. lia.
    + rewrite pos_iter_xO_Z.
      replace (Z.pos (digits2_pos n) - 53) with (- Z.pos q) by lia.
      rewrite <- Z.shiftr_opp_r, Z.opp_involutive.
      rewrite Z.shiftr_shiftl_l by lia. by rewrite Z.sub_diag.
Qed.

Lemma append_empty (s : string) : s +:+ EmptyString = s.
Proof.
  induction s as [|c s IH]; [done|].
  change (String c (s +:+ EmptyString) = String c s). by rewrite IH.
Qed.

Lemma span_digits_all (lit : string) :
  forallb is_digit (list_ascii_of_string lit) = true ->
  span_digits lit = (lit, EmptyString).
Proof.
  induction lit as [|c lit IH]; [done|].
  cbn [list_ascii_of_string forallb span_digits]. intros [Hc Hlit]%andb_prop.
  by rewrite Hc, (IH Hlit).
Qed.

Lemma digit_is_not_minus (c : ascii) : is_digit c = true -> c <> "-"%char.
Proof. intros Hc ->. vm_compute in Hc. discriminate. Qed.

(** The literal of a non-negative integer parses to its coefficient. *)
Lemma ParseFloat_digits (neg : bool) (lit : string) :
  all_digits lit = true ->
  strconv_ParseFloat ((if neg then "-" else EmptyString) +:+ lit)
  = match decimal_to_float64 neg (digits_value lit 0) 0 with
    | S754_infinity _ => None
    | f => Some f
    end.
Proof.
  unfold all_digits. intros [Hne Hall]%andb_prop.
  unfold strconv_ParseFloat.
  assert (Hsplit :
    match (if neg then "-" else EmptyString) +:+ lit with
    | String "-"%char r => (true, r)
    | _ => (false, (if neg then "-" else EmptyString) +:+ lit)
    end = (neg, lit)).
  { destruct neg; [done|]. cbn [String.append].
    destruct lit as [|c lit]; [done|].
    cbn [list_ascii_of_string forallb] in Hall. apply andb_prop in Hall as [Hc _].
    pose proof (digit_is_not_minus c Hc) as Hm.
    destruct c as [[] [] [] [] [] [] [] []]; try done. }
  rewrite Hsplit, (span_digits_all lit Hall). cbn [String.length Z.of_nat].
  by rewrite append_empty.
Qed.

(** The value of a decimal numeral read from the left, digit by digit. *)
Lemma digits_value_of_uint_acc (d : Decimal.uint) (acc : positive) :
  digits_value (NilEmpty.string_of_uint d) (Npos acc) = Npos (Pos.of_uint_acc d acc).
Proof.
  revert acc. induction d as [|d IH|d IH|d IH|d IH|d IH|d IH|d IH|d IH|d IH|d IH];
    intros acc; [done|..];
    cbn [NilEmpty.string_of_uint digits_value Pos.of_uint_acc];
    match goal with
    | |- digits_value _ ?a = _ =>
        match goal with
        | |- _ = N.pos (Pos.of_uint_acc _ ?b) =>
            replace a with (N.pos b) by (vm_compute (byte_of _); lia)
        end
    end; apply IH.
Qed.

Lemma digits_value_of_uint (d : Decimal.uint) :
  digits_value (NilEmpty.string_of_uint d) 0 = Pos.of_uint d.
Proof.
  induction d as [|d IH|d IH|d IH|d IH|d IH|d IH|d IH|d IH|d IH|d IH]; [done|exact IH|..];
    cbn [NilEmpty.string_of_uint digits_value Pos.of_uint];
    apply digits_value_of_uint_acc.
Qed.

Lemma digits_value_to_uint (p : positive) :
  digits_value (NilEmpty.string_of_uint (Pos.to_uint p)) 0 = Npos p.
Proof. rewrite digits_value_of_uint. apply Unsigned.of_to. Qed.

Lemma string_of_uint_digits (d : Decimal.uint) :
  forallb is_digit (list_ascii_of_string (NilEmpty.string_of_uint d)) = true.
Proof. induction d; [done|..]; exact IHd. Qed.

Lemma nzhead_head (d : Decimal.uint) :
  match Decimal.nzhead d with Decimal.D0 _ => False | _ => True end.
Proof. induction d; done. Qed.

(** The numeral of a positive number starts with a digit from 1 to 9. *)
Lemma to_uint_leading_digit (p : positive) :
  exists (c : ascii) (ds : string),
    NilEmpty.string_of_uint (Pos.to_uint p) = String c ds
    /\ in_range 49 57 c = true
    /\ forallb is_digit (list_ascii_of_string ds) = true.
Proof.
  pose proof (Unsigned.to_of (Pos.to_uint p)) as Hnorm.
  rewrite Unsigned.of_to in Hnorm. cbn [N.to_uint] in Hnorm.
  pose proof (Unsigned.to_uint_nonzero p) as Hzero.
  pose proof (string_of_uint_digits (Pos.to_uint p)) as Hall.
  pose proof (nzhead_head (Pos.to_uint p)) as Hhead.
  revert Hnorm Hzero Hall Hhead. generalize (Pos.to_uint p) as u. intros u.
  unfold Decimal.unorm.
  destruct (Decimal.nzhead u) as [|d|d|d|d|d|d|d|d|d|d];
    intros -> Hzero Hall Hhead; try done;
    cbn [NilEmpty.string_of_uint list_ascii_of_string forallb] in *;
    apply andb_prop in Hall as [_ Hall];
    eexists _, _; (split; [reflexivity|]); by split.
Qed.

Lemma span_digits_app (ds rest : string) :
  forallb is_digit (list_ascii_of_string ds) = true ->
  match rest with String c _ => is_digit c = false | EmptyString => True end ->
  span_digits (ds +:+ rest) = (ds, rest).
Proof.
  intros Hall Hrest. induction ds as [|c ds IH].
  - change (EmptyString +:+ rest) with rest. destruct rest as [|c r]; [done|].
    cbn [span_digits]. by rewrite Hrest.
  - cbn [list_ascii_of_string forallb] in Hall. apply andb_prop in Hall as [Hc Hall].
    change (String c ds +:+ rest) with (String c (ds +:+ rest)).
    cbn [span_digits]. by rewrite Hc, (IH Hall).
Qed.

(** A value that starts with a minus or a digit is scanned as a number. *)
Lemma scan_value_number (depth : nat) (c : ascii) (r : string) :
  c = "-"%char \/ is_digit c = true ->
  scan_value depth (String c r)
  = '(lit, rest) ← scan_number (String c r); Some (JNumber lit, rest).
Proof.
  intros [->|Hc]; [by destruct depth|].
  destruct c as [[] [] [] [] [] [] [] []]; try (vm_compute in Hc; discriminate Hc);
    by destruct depth.
Qed.

(** The scanner takes the numeral of a positive number, with or without a
    minus, up to the closing brace that follows it. *)
Lemma scan_number_numeral (neg : bool) (p : positive) (r : string) :
  let lit := (if neg then "-" else EmptyString) +:+ NilEmpty.string_of_uint (Pos.to_uint p) in
  scan_number (lit +:+ String "}" r) = Some (lit, String "}" r).
Proof.
  destruct (to_uint_leading_digit p) as (c & ds & -> & Hc & Hds).
  cbn zeta. unfold scan_number.
  set (rest := String "}" r).
  assert (Hspan : span_digits (ds +:+ rest) = (ds, rest)) by by apply span_digits_app.
  assert (Hint :
    match String c (ds +:+ rest) with
    | String "0"%char r0 => Some ("0", r0)
    | String c0 r0 =>
        if in_range 49 57 c0
        then let '(ds0, rest0) := span_digits r0 in Some (String c0 ds0, rest0)
        else None
    | EmptyString => None
    end = Some (String c ds, rest)).
  { rewrite Hspan. destruct c as [[] [] [] [] [] [] [] []]; try done. }
  destruct neg.
  - change (("-" +:+ String c ds) +:+ rest) with (String "-" (String c (ds +:+ rest))).
    cbv iota beta. rewrite Hint. subst rest. cbn [mbind option_bind].
    change (("}" =? "e")%char || ("}" =? "E")%char) with false.
    cbv iota. cbn [mbind option_bind].
    by rewrite !append_empty.
  - change ((EmptyString +:+ String c ds) +:+ rest) with (String c (ds +:+ rest)).
    assert (Hsign :
      match String c (ds +:+ rest) with
      | String "-"%char r0 => ("-", r0)
      | _ => (EmptyString, String c (ds +:+ rest))
      end = (EmptyString, String c (ds +:+ rest))).
    { destruct c as [[] [] [] [] [] [] [] []]; try done. }
    cbv iota beta in Hsign |- *. rewrite Hsign. cbv iota beta in Hint |- *. rewrite Hint. subst rest. cbn [mbind option_bind].
    change (("}" =? "e")%char || ("}" =? "E")%char) with false.
    cbv iota. cbn [mbind option_bind].
    change (EmptyString +:+ String c ds) with (String c ds).
    by rewrite !append_empty.
Qed.

Lemma fmt_d_parts (z : Z) :
  z <> 0 ->
  fmt_d z = (if z <? 0 then "-" else EmptyString)
            +:+ NilEmpty.string_of_uint (Pos.to_uint (Z.to_pos (Z.abs z))).
Proof.
  intros Hz. unfold fmt_d, NilZero.string_of_int, NilZero.string_of_uint.
  destruct z as [|p|p]; [done|..];
    cbn [Z.to_int]; change (Z.to_pos (Z.abs _)) with p;
    pose proof (Unsigned.to_uint_nonnil p);
    by destruct (Pos.to_uint p).
Qed.

Lemma scan_value_object (d : nat) (r : string) :
  scan_value (S d) (String "{" r)
  = match skip_space r with
    | String "}"%char r' => Some (JObject [], r')
    | r1 =>
        '(ms, rest) ← scan_members (scan_value d) (String.length r1) r1;
        Some (JObject ms, rest)
    end.
Proof. reflexivity. Qed.

Lemma scan_value_array (d : nat) (r : string) :
  scan_value (S d) (String "[" r)
  = match skip_space r with
    | String "]"%char r' => Some (JArray [], r')
    | r1 =>
        '(vs, rest) ← scan_elements (scan_value d) (String.length r1) r1;
        Some (JArray vs, rest)
    end.
Proof. reflexivity. Qed.

Lemma append_String (c : ascii) (s t : string) : String c s +:+ t = String c (s +:+ t).
Proof. reflexivity. Qed.

(** An object with one member: key, colon, value, closing brace. *)
Lemma scan_members_last (sv : string -> option (json_value * string)) (fuel : nat)
    (s : string) (q : ascii) (r raw r1 r2 : string) (v : json_value) (r3 r4 : string) :
  skip_space s = String q r ->
  (byte_of q =? quote_byte)%N = true ->
  scan_string r = Some (raw, r1) ->
  skip_space r1 = String ":" r2 ->
  sv r2 = Some (v, r3) ->
  skip_space r3 = String "}" r4 ->
  scan_members sv (S fuel) s = Some ([(unquote raw, v)], r4).
Proof.
  intros Hs Hq Hraw Hr1 Hv Hr3. cbn [scan_members].
  rewrite Hs, Hq, Hraw. cbn [mbind option_bind]. rewrite Hr1, Hv.
  cbn [mbind option_bind]. by rewrite Hr3.
Qed.

(** An array with one element. *)
Lemma scan_elements_last (sv : string -> option (json_value * string)) (fuel : nat)
    (s : string) (v : json_value) (r r' : string) :
  sv s = Some (v, r) ->
  skip_space r = String "]" r' ->
  scan_elements sv (S fuel) s = Some ([v], r').
Proof.
  intros Hv Hr. cbn [scan_elements]. rewrite Hv. cbn [mbind option_bind]. by rewrite Hr.
Qed.

Ltac open_container :=
  match goal with
  | |- context [skip_space (String ?c ?r)] =>
      change (skip_space (String c r)) with (String c r); cbv beta iota zeta;
      change (String.length (String c r)) with (S (String.length r))
  end.

Lemma parse_priority_body (z : Z) :
  json_parse (priority_body z)
  = Some (JObject [("data", JArray [JObject [("priority", JNumber (fmt_d z))]])]).
Proof.
  assert (Hnum : forall depth,
    scan_value depth (fmt_d z +:+ "}]}") = Some (JNumber (fmt_d z), "}]}")).
  { intros depth. destruct (decide (z = 0)) as [->|Hz]; [by destruct depth; vm_compute|].
    rewrite (fmt_d_parts z Hz).
    pose proof (scan_number_numeral (z <? 0) (Z.to_pos (Z.abs z)) "]}") as Hscan.
    cbn zeta in Hscan.
    destruct (to_uint_leading_digit (Z.to_pos (Z.abs z))) as (c & ds & E & Hc & _).
    rewrite E in *.
    assert (Hd : is_digit c = true).
    { destruct c as [[] [] [] [] [] [] [] []]; try done. }
    destruct (z <? 0).
    - change (("-" +:+ String c ds) +:+ "}]}") with (String "-" (String c ds +:+ "}]}")) in *.
      rewrite scan_value_number by by left. by rewrite Hscan.
    - change ((EmptyString +:+ String c ds) +:+ "}]}") with (String c (ds +:+ "}]}")) in *.
      rewrite scan_value_number by by right. by rewrite Hscan. }
  unfold json_parse, priority_body.
  change maxNestingDepth with (S (S (S (Nat.pred (Nat.pred (Nat.pred maxNestingDepth)))))).
  generalize (Nat.pred (Nat.pred (Nat.pred maxNestingDepth))) as d. intros d.
  specialize (Hnum d). revert Hnum. generalize (fmt_d z) as lit. intros lit.
  vm_compute (json_text _). rewrite !append_String.
  change (EmptyString +:+ (lit +:+ "}]}")) with (lit +:+ "}]}").
  generalize (lit +:+ "}]}") as t. intros t Hnum.
  match goal with
  | |- context [String "["%char (String "{"%char ?r)] =>
      assert (Hobject : scan_value (S d) (String "{" r)
                        = Some (JObject [("priority", JNumber lit)], "]}"))
  end.
  { rewrite scan_value_object. open_container.
    erewrite scan_members_last; [|reflexivity|reflexivity|
      vm_compute; reflexivity|reflexivity|exact Hnum|reflexivity]; reflexivity. }
  match goal with
  | |- context [String ":"%char (String "["%char (String "{"%char ?r))] =>
      revert Hobject; generalize r as r0; intros r0 Hobject
  end.
  assert (Harray : scan_value (S (S d)) (String "[" (String "{" r0))
                   = Some (JArray [JObject [("priority", JNumber lit)]], "}")).
  { rewrite scan_value_array. open_container.
    erewrite scan_elements_last; [|exact Hobject|reflexivity]; reflexivity. }
  rewrite scan_value_object. open_container.
  erewrite scan_members_last; [|reflexivity|reflexivity|
    vm_compute; reflexivity|reflexivity|exact Harray|reflexivity]; reflexivity.
Qed.

(** The numeral of an integer of magnitude below [2 ^ 53] parses to the
    [float64] with that very value. *)
Lemma ParseFloat_fmt_d (z : Z) :
  - 2 ^ 53 < z < 2 ^ 53 ->
  exists f : float64, strconv_ParseFloat (fmt_d z) = Some f /\ float64_truncate f = Some z.
Proof.
  intros Hz. destruct (decide (z = 0)) as [->|Hnz].
  { by exists (S754_zero false). }
  rewrite (fmt_d_parts z Hnz).
  set (p := Z.to_pos (Z.abs z)).
  assert (Hdigits : all_digits (NilEmpty.string_of_uint (Pos.to_uint p)) = true).
  { unfold all_digits. rewrite string_of_uint_digits.
    by destruct (to_uint_leading_digit p) as (c & ds & -> & _). }
  rewrite (ParseFloat_digits _ _ Hdigits), digits_value_to_uint.
  unfold decimal_to_float64. change (0 <=? 0) with true. cbv iota.
  change (Z.to_pos (10 ^ 0)) with 1%positive. rewrite Pos.mul_1_r.
  destruct (binary_round_small (z <? 0) p) as (m & e & -> & Hval); [subst p; lia|].
  eexists. split; [reflexivity|]. cbn [float64_truncate]. rewrite Hval. f_equal.
  subst p. destruct (Z.ltb_spec z 0); cbn [cond_Zopp]; lia.
Qed.

(** X17: a priority that the API writes as a decimal integer of magnitude
    below 2^53 is decoded without error and projected to exactly that
    integer: the passage through [float64] loses nothing. *)
Theorem integral_priority_round_trip (w : World) (z : Z) :
  - 2 ^ 53 < z < 2 ^ 53 ->
  exists sr : storageResponse_t,
    json_Unmarshal (priority_body z) = inr sr
    /\ map Priority (convert_response w (Data sr)) = [types_Int64Value z].
Proof.
  intros Hz. destruct (ParseFloat_fmt_d z Hz) as (f & Hparse & Htrunc).
  exists {| Data := [{["priority" := any_float64 f]}] |}. split.
  - unfold json_Unmarshal. rewrite parse_priority_body.
    cbn [value_into_struct object_into_struct fst snd].
    change (key_matches_field "data" "data") with true. cbv iota.
    cbn [value_into_slice array_into_slice value_into_map object_into_map
         valueInterface fst snd Data lookup].
    by rewrite Hparse.
  - rewrite convert_response_map. cbn [Data map convert_storage Priority].
    rewrite lookup_singleton, decide_True by done. unfold int64_of_float64. rewrite Htrunc.
    replace (in_int64 z) with true; [done|].
    symmetry. unfold in_int64, int64_min, int64_max. apply andb_true_intro. split; apply Z.leb_le; lia.
Qed.

Lemma integral_priority_round_trip_witness :
  - 2 ^ 53 < -7 < 2 ^ 53
  /\ exists sr : storageResponse_t,
       json_Unmarshal (priority_body (-7)) = inr sr
       /\ map Priority (convert_response (sample_world (ok_response (priority_body (-7))))
                          (Data sr))
          = [types_Int64Value (-7)].
Proof.
  split; [lia|].
  apply (integral_priority_round_trip (sample_world (ok_response (priority_body (-7)))) (-7)).
  lia.
Defined.

(* --------------------------------------------------------------------- *)
(** ** A data source that was given no client                             *)
(* --------------------------------------------------------------------- *)

(** X18: [Configure] of the data source sets the client only from a
    [*ProxmoxClient].  When the provider data is nil, or of another type
    (for which [Configure] adds an error but still returns a usable data
    source), a later [Read] whose configuration decodes dereferences the nil
    client: it panics, before any request is sent and without a diagnostic. *)
Theorem read_panics_without_client (w : World)
    (creq : datasource_ConfigureRequest) (cresp : datasource_ConfigureResponse)
    (req : datasource_ReadRequest) (resp : datasource_ReadResponse)
    (log : list http_Request) :
  (forall c : ProxmoxClient, ProviderData creq <> ProviderData_client c) ->
  Diagnostics_HasError (rs_Diagnostics (rs_decoded req resp)) = false ->
  StoragesDataSource_Read w
    (StoragesDataSource_Configure NewStoragesDataSource creq cresp).1 req resp log
  = (Panics, log).
Proof.
  intros Hother Hdecoded. apply Read_nil_client; [exact Hdecoded|].
  unfold StoragesDataSource_Configure.
  destruct (ProviderData creq) as [|c|name] eqn:E; [done| |done].
  by destruct (Hother c).
Qed.

Lemma read_panics_without_client_witness :
  StoragesDataSource_Read (sample_world (ok_response sample_body))
    (StoragesDataSource_Configure NewStoragesDataSource
       {| ProviderData := ProviderData_other "string" |}
       {| dcr_Diagnostics := [] |}).1
    sample_ReadRequest fresh_ReadResponse []
  = (Panics, []).
Proof.
  apply (read_panics_without_client (sample_world (ok_response sample_body))
           {| ProviderData := ProviderData_other "string" |}
           {| dcr_Diagnostics := [] |} sample_ReadRequest fresh_ReadResponse []).
  - intros c. cbn [ProviderData]. discriminate.
  - reflexivity.
Defined.
